(** * A shallow embedding of the [@shkumbinhsn/fetcher] response dispatch

    The development follows the TypeScript sources

    - [src/api/validation.ts]  ([SchemaValidationError], [validateSchema]),
    - [src/errors/base.ts]     ([ApiError], [ApiErrorStatic]),
    - [src/errors/factory.ts]  ([defineError]),
    - [src/api/fetcher.ts]     ([fetcher], [handleErrorResponse],
                                [parseResponse]).

    Every [await] in these files is sequential, so an [async] function is
    embedded as the settled outcome of its promise together with the ordered
    list of calls it made to its collaborators (the transport, the body
    decoder, the schemas, the console).  The collaborators are represented by
    the outcome they settle with; a collaborator whose promise never settles
    is outside the embedding.

    What the platform and the language fix is written out where it is used:
    [response.ok] as a function of the status, the truthiness of strings and
    arrays, the [instanceof] tests as the constructors of [Thrown], and the
    difference between [return await p] and [return p] inside a [try] block
    ([async_return]). *)

From Stdlib Require Import ZArith String Ascii DecimalString.
From stdpp Require Import base option list strings gmap.

#[local] Set Warnings "-register-all".
Local Open Scope string_scope.
Local Open Scope Z_scope.
Local Open Scope list_scope.

(** ** JavaScript values *)

(** The values that travel through the dispatcher: decoded JSON bodies and
    schema outputs.  [JUndefined] is the [value] of a failure result. *)
Inductive JsVal : Type :=
  | JUndefined
  | JNull
  | JBool (b : bool)
  | JNum (n : Z)
  | JStr (s : string)
  | JArr (items : list JsVal)
  | JObj (fields : list (string * JsVal)).

(** A settled promise (or a completed call): fulfilled with a value or
    rejected with a reason. *)
Inductive Settled (E A : Type) : Type :=
  | Fulfilled (value : A)
  | Rejected (reason : E).
Arguments Fulfilled {E A} value.
Arguments Rejected {E A} reason.

(** A plain [Error] object of the platform ([Error], [TypeError],
    [SyntaxError], ...): its [name] and its [message]. *)
Record JsError : Type := { Error_name : string; Error_message : string }.

(** [new Error(message)]. *)
Definition new_Error (message : string) : JsError :=
  {| Error_name := "Error"; Error_message := message |}.

(** Truthiness of a string: only the empty string is falsy. *)
Definition truthy (s : string) : bool :=
  match s with
  | EmptyString => false
  | String _ _ => true
  end.

(** What a template literal makes of a number that is an integer (of
    magnitude below 10^21): the decimal digits, with a leading minus sign
    for a negative number.  Status codes are integers. *)
Definition Number_toString (n : Z) : string :=
  NilZero.string_of_int (Z.to_int n).

(** [String.prototype.includes]. *)
Fixpoint includes (s sub : string) : bool :=
  String.prefix sub s ||
  match s with
  | EmptyString => false
  | String _ rest => includes rest sub
  end.

(** ** The transport boundary: [Response] *)

(** The part of a Fetch [Response] the dispatcher reads.  [headers] is the
    header map behind [response.headers.get] (header names in lower case);
    [json] is what [response.json()] settles with. *)
Record Response : Type := {
  status : Z;
  statusText : string;
  headers : gmap string string;
  json : Settled JsError JsVal
}.

(** [response.ok] is a getter of the platform: the status is in 200..299. *)
Definition ok (response : Response) : bool :=
  (200 <=? status response) && (status response <=? 299).

(** [response.headers.get(name)]: the value, or [null] ([None]). *)
Definition headers_get (response : Response) (name : string) : option string :=
  headers response !! name.

(** ** The schema boundary: Standard Schema *)

(** [StandardSchemaV1.Issue]. *)
Record Issue : Type := { Issue_message : string; Issue_path : list JsVal }.

(** [StandardSchemaV1.Result]: [issues] is [undefined] ([None]) on success
    and an array on failure. *)
Record Result : Type := { Result_value : JsVal; Result_issues : option (list Issue) }.

(** [SchemaValidationError] (validation.ts): an [Error] with the issue list;
    its [name] is always ['SchemaValidationError']. *)
Record SchemaValidationError : Type := {
  SVE_message : string;
  SVE_issues : list Issue
}.

(** Schemas, thrown values, typed errors and error classes refer to each
    other: a schema's [validate] is user code and may throw anything, also a
    typed error; a typed error remembers its class; a class holds its schema.

    - [Schema]: the [validate] entry point of [schema['~standard']], given by
      what the call (awaited) settles with;
    - [Thrown]: what a [catch (error)] can receive, by the [instanceof] tests
      the sources make: an [ApiError], a [SchemaValidationError], another
      [Error], or a value that is not an [Error];
    - [ApiError]: an instance of a class made by [defineError];
    - [ErrorClass]: the class value [defineError] returns, represented by the
      [name] property the runtime gave to the class expression and by the
      three variables its body captures. *)
Inductive Schema : Type :=
  | StandardSchema (validate : JsVal -> Settled Thrown Result)
with Thrown : Type :=
  | ThrownApiError (e : ApiError)
  | ThrownSchemaValidationError (e : SchemaValidationError)
  | ThrownError (e : JsError)
  | ThrownValue (v : JsVal)
with ApiError : Type :=
  | Build_ApiError (name message : string) (data : JsVal) (response : Response)
                   (statusCode : Z) (constructor : ErrorClass)
with ErrorClass : Type :=
  | Build_ErrorClass (class_name : string) (statusCode : Z) (schema : Schema)
                     (name : option string).

Definition validate (schema : Schema) : JsVal -> Settled Thrown Result :=
  match schema with StandardSchema v => v end.

Definition ApiError_name (e : ApiError) : string :=
  match e with Build_ApiError n _ _ _ _ _ => n end.
Definition ApiError_message (e : ApiError) : string :=
  match e with Build_ApiError _ m _ _ _ _ => m end.
Definition ApiError_data (e : ApiError) : JsVal :=
  match e with Build_ApiError _ _ d _ _ _ => d end.
Definition ApiError_response (e : ApiError) : Response :=
  match e with Build_ApiError _ _ _ r _ _ => r end.
Definition ApiError_statusCode (e : ApiError) : Z :=
  match e with Build_ApiError _ _ _ _ s _ => s end.
Definition ApiError_constructor (e : ApiError) : ErrorClass :=
  match e with Build_ApiError _ _ _ _ _ c => c end.

(** The [name] property of the class object ([this.constructor.name]). *)
Definition ErrorClass_name (E : ErrorClass) : string :=
  match E with Build_ErrorClass n _ _ _ => n end.
(** [static readonly statusCode]. *)
Definition ErrorClass_statusCode (E : ErrorClass) : Z :=
  match E with Build_ErrorClass _ s _ _ => s end.
(** [static readonly schema]. *)
Definition ErrorClass_schema (E : ErrorClass) : Schema :=
  match E with Build_ErrorClass _ _ s _ => s end.
(** The captured parameter [name?: string] of [defineError]. *)
Definition ErrorClass_displayName (E : ErrorClass) : option string :=
  match E with Build_ErrorClass _ _ _ n => n end.

(** [error instanceof E] for a class [E] made by [defineError]. *)
Definition instanceof (error : Thrown) (E : ErrorClass) : Prop :=
  match error with
  | ThrownApiError e => ApiError_constructor e = E
  | _ => False
  end.

(** ** Asynchronous functions *)

(** The calls the dispatcher makes to its collaborators. *)
Definition RequestInfo : Type := string.
Definition RequestInit : Type := list (string * JsVal).

Inductive Event : Type :=
  | CallFetch (input : RequestInfo) (requestInit : RequestInit)
  | CallJson (response : Response)
  | CallValidate (schema : Schema) (data : JsVal)
  | CallConsoleError (issues : list Issue) (received : JsVal).

(** The run of an [async] function body: how it completes (it returns a
    value or throws) and the calls it made, oldest first.  The promise the
    function returns settles accordingly, so the same type stands for a
    promise that has been started but not awaited. *)
Definition Async (A : Type) : Type := Settled Thrown A * list Event.

#[global] Instance Async_ret : MRet Async := fun A a => (Fulfilled a, []).

Definition throw {A} (error : Thrown) : Async A := (Rejected error, []).

(** Sequencing: what follows a statement that threw is not executed. *)
#[global] Instance Async_bind : MBind Async := fun A B k m =>
  match m with
  | (Fulfilled a, calls) => let (r, calls') := k a in (r, calls ++ calls')
  | (Rejected error, calls) => (Rejected error, calls)
  end.

(** [await collaborator(...)]: the call is recorded, then its outcome is
    unpacked, a rejection being thrown at the [await]. *)
Definition await_call {A} (call : Event) (outcome : Settled Thrown A) : Async A :=
  (outcome, [call]).

(** A call that returns nothing ([console.error]). *)
Definition emit (call : Event) : Async unit := (Fulfilled tt, [call]).

(** [try { body } catch (error) { handler }]. *)
Definition try_catch {A} (body : Async A) (handler : Thrown -> Async A) : Async A :=
  match body with
  | (Rejected error, calls) => let (r, calls') := handler error in (r, calls ++ calls')
  | (Fulfilled a, calls) => (Fulfilled a, calls)
  end.

(** What an [async] function's promise settles with when its body executes
    [return p] on a promise [p] that is not awaited: the [return] completes
    the body (leaving any enclosing [try] block normally, with [p] as the
    returned value) and only then is the function's promise resolved with
    [p], adopting the outcome of [p].  A rejection of [p] is therefore not
    seen by a [catch] around the [return]. *)
Definition async_return {A} (body : Async (Async A)) : Async A :=
  p ← body; p.

(** The type [never]. *)
Definition never : Type := Empty_set.

(** Statements after an expression of type [never] are not reached. *)
Definition unreachable {A} (x : never) : A := match x with end.

(** ** validation.ts *)

(** [result.issues[0]?.message || 'Unknown error']. *)
Definition first_issue_message (issues : list Issue) : string :=
  match head issues with
  | Some issue =>
      if truthy (Issue_message issue) then Issue_message issue else "Unknown error"
  | None => "Unknown error"
  end.

Definition validateSchema (schema : Schema) (data : JsVal) : Async JsVal :=
  result ← await_call (CallValidate schema data) (validate schema data);
  match Result_issues result with
  | Some issues =>
      let message := "Validation failed: " +:+ first_issue_message issues in
      throw (ThrownSchemaValidationError
               {| SVE_message := message; SVE_issues := issues |})
  | None => mret (Result_value result)
  end.

(** ** errors/base.ts and errors/factory.ts *)

Section Factory.

(** The [name] property the runtime gives to the class expression in the
    body of [defineError].  The expression is anonymous; the value depends
    on how the file is compiled and run: the empty string when the source
    runs as it is written, the name of a temporary when the static fields
    are lowered to assignments. *)
Variable anonymous_class_name : string.

Definition defineError (statusCode : Z) (schema : Schema) (name : option string)
  : ErrorClass :=
  Build_ErrorClass anonymous_class_name statusCode schema name.

End Factory.

(** [new E(message, data, response)] for a class [E] made by [defineError]:
    the constructor of [ApiError] stores [message], [data] and [response] and
    sets [this.name = this.constructor.name]; the field initialiser sets
    [statusCode]; then [if (name) this.name = name]. *)
Definition new (E : ErrorClass) (message : string) (data : JsVal) (response : Response)
  : ApiError :=
  let this_name := ErrorClass_name E in
  let this_name :=
    match ErrorClass_displayName E with
    | Some name => if truthy name then name else this_name
    | None => this_name
    end in
  Build_ApiError this_name message data response (ErrorClass_statusCode E) E.

(** ** api/fetcher.ts *)

(** The [try] block of the loop in [handleErrorResponse], for one candidate:
    validate, then throw the typed error. *)
Definition attempt (response : Response) (responseData : JsVal) (E : ErrorClass)
  : Async unit :=
  validatedData ← validateSchema (ErrorClass_schema E) responseData;
  throw (ThrownApiError (new E (statusText response) validatedData response)).

(** The [catch] block of the loop: a [SchemaValidationError] is dropped and
    the loop continues; anything else is thrown again. *)
Definition attempt_failed (error : Thrown) : Async unit :=
  match error with
  | ThrownSchemaValidationError _ => mret tt
  | _ => throw error
  end.

(** The [for ... of matchingErrors] loop; it completes normally when every
    candidate was dropped. *)
Fixpoint try_each (response : Response) (responseData : JsVal)
    (matchingErrors : list ErrorClass) : Async unit :=
  match matchingErrors with
  | [] => mret tt
  | E :: rest =>
      try_catch (attempt response responseData E) attempt_failed;;
      try_each response responseData rest
  end.

(** [`Request failed: ${response.status} ${response.statusText}`]; a
    template literal is a concatenation, written [+:+]. *)
Definition request_failed (response : Response) : string :=
  "Request failed: " +:+ Number_toString (status response) +:+ " " +:+ statusText response.

(** [await response.json()]. *)
Definition Response_json (response : Response) : Async JsVal :=
  await_call (CallJson response)
    (match json response with
     | Fulfilled data => Fulfilled data
     | Rejected e => Rejected (ThrownError e)
     end).

(** [!errorTypes?.length]: true for [undefined] and for an empty array. *)
Definition no_length {A} (errorTypes : option (list A)) : bool :=
  match errorTypes with
  | None => true
  | Some l => bool_decide (length l = 0%nat)
  end.

(** [errorTypes.filter(E => E.statusCode === response.status)]. *)
Definition matchingErrors (response : Response) (errorTypes : option (list ErrorClass))
  : list ErrorClass :=
  filter (fun E => ErrorClass_statusCode E = status response) (default [] errorTypes).

Definition handleErrorResponse (response : Response)
    (errorTypes : option (list ErrorClass)) : Async never :=
  if no_length errorTypes
  then throw (ThrownError (new_Error (request_failed response)))
  else
    let matchingErrors := matchingErrors response errorTypes in
    if bool_decide (length matchingErrors = 0%nat)
    then throw (ThrownError (new_Error (request_failed response)))
    else
      responseData ←
        try_catch (Response_json response)
          (fun _ => throw (ThrownError (new_Error (request_failed response))));
      try_each response responseData matchingErrors;;
      throw (ThrownError
               (new_Error (request_failed response +:+ " - No matching error schema"))).

Definition parseResponse (response : Response) (schema : option Schema) : Async JsVal :=
  if bool_decide (status response = 204)
     || bool_decide (headers_get response "content-length" = Some "0")
  then mret JNull
  else
    data ← Response_json response;
    match schema with
    | None => mret data
    | Some schema =>
        try_catch
          (validatedData ← validateSchema schema data;
           mret validatedData)
          (fun error =>
             match error with
             | ThrownSchemaValidationError e =>
                 emit (CallConsoleError (SVE_issues e) data)
             | _ => mret tt
             end;;
             throw error)
    end.

(** [FetcherRequestInit]: a [RequestInit] with two more optional fields. *)
Record FetcherRequestInit : Type := {
  schema : option Schema;
  errors : option (list ErrorClass);
  requestInit : RequestInit
}.

(** [init || {}], as destructured into [schema], [errors] and the rest. *)
Definition init_or_empty (init : option FetcherRequestInit) : FetcherRequestInit :=
  default {| schema := None; errors := None; requestInit := [] |} init.

(** The global [fetch], by what its promise settles with. *)
Definition Fetch : Type := RequestInfo -> RequestInit -> Settled Thrown Response.

(** The [try] block of [fetcher].  [handleErrorResponse] is awaited, so
    what it throws is thrown inside the block.  The last statement is
    [return parseResponse(response, schema)], without [await]: the block
    completes with the promise as its value, see [async_return]. *)
Definition request (fetch : Fetch) (input : RequestInfo)
    (init : option FetcherRequestInit) : Async (Async JsVal) :=
  let init := init_or_empty init in
  response ← await_call (CallFetch input (requestInit init))
                (fetch input (requestInit init));
  (if negb (ok response)
   then x ← handleErrorResponse response (errors init); unreachable x
   else mret tt);;
  mret (parseResponse response (schema init)).

(** The error [fetcher]'s [catch] block throws for the error it caught. *)
Definition rethrown (error : Thrown) : Thrown :=
  match error with
  | ThrownApiError _ => error
  | ThrownSchemaValidationError e =>
      ThrownError (new_Error ("Response validation failed: " +:+ SVE_message e))
  | ThrownError e =>
      ThrownError (new_Error ("Request failed: " +:+ Error_message e))
  | ThrownValue _ =>
      ThrownError (new_Error ("Request failed: " +:+ "Unknown error"))
  end.

Definition fetcher (fetch : Fetch) (input : RequestInfo)
    (init : option FetcherRequestInit) : Async JsVal :=
  async_return
    (try_catch (request fetch input init) (fun error => throw (rethrown error))).

(** ** Vocabulary of the statements *)

(** How a run completed, and the calls it made. *)
Definition outcome {A} (run : Async A) : Settled Thrown A := run.1.
Definition calls {A} (run : Async A) : list Event := run.2.

(** The schema rejects the value: [validateSchema] throws a
    [SchemaValidationError]. *)
Definition rejects (data : JsVal) (E : ErrorClass) : Prop :=
  exists e, outcome (validateSchema (ErrorClass_schema E) data)
            = Rejected (ThrownSchemaValidationError e).

(** The schema accepts the value with output [v]. *)
Definition accepts (data : JsVal) (E : ErrorClass) (v : JsVal) : Prop :=
  outcome (validateSchema (ErrorClass_schema E) data) = Fulfilled v.

(** The validations of the candidates of a list, in order. *)
Definition validations (data : JsVal) (candidates : list ErrorClass) : list Event :=
  map (fun E => CallValidate (ErrorClass_schema E) data) candidates.


(** ** Concrete schemas, responses and error kinds *)

Module Examples.

Definition is_string (v : JsVal) : bool :=
  match v with JStr _ => true | _ => false end.

Definition is_number (v : JsVal) : bool :=
  match v with JNum _ => true | _ => false end.

Fixpoint field (name : string) (fields : list (string * JsVal)) : option JsVal :=
  match fields with
  | [] => None
  | (k, v) :: rest => if String.eqb k name then Some v else field name rest
  end.

(** The issues an object schema reports: one for each required field that
    is missing or of the wrong type. *)
Definition shape_issues (shape : list (string * (JsVal -> bool))) (v : JsVal)
  : list Issue :=
  match v with
  | JObj fields =>
      flat_map
        (fun required : string * (JsVal -> bool) =>
           let (name, test) := required in
           match field name fields with
           | Some x =>
               if test x then []
               else [{| Issue_message := "Invalid type"; Issue_path := [JStr name] |}]
           | None => [{| Issue_message := "Required"; Issue_path := [JStr name] |}]
           end)
        shape
  | _ => [{| Issue_message := "Expected object"; Issue_path := [] |}]
  end.

(** A schema in the manner of [z.object({...})]. *)
Definition object_schema (shape : list (string * (JsVal -> bool))) : Schema :=
  StandardSchema
    (fun v =>
       match shape_issues shape v with
       | [] => Fulfilled {| Result_value := v; Result_issues := None |}
       | issues =>
           Fulfilled {| Result_value := JUndefined; Result_issues := Some issues |}
       end).

Definition bar_string : Schema := object_schema [("bar", is_string)].
Definition foo_number : Schema := object_schema [("foo", is_number)].
Definition id_string : Schema := object_schema [("id", is_string)].

(** A schema whose [validate] throws. *)
Definition crashing : Schema :=
  StandardSchema
    (fun _ => Rejected (ThrownError {| Error_name := "TypeError";
                                        Error_message := "boom" |})).

(** A schema that reports a failure with an empty issue list. *)
Definition no_issue : Schema :=
  StandardSchema
    (fun _ => Fulfilled {| Result_value := JUndefined; Result_issues := Some [] |}).

Definition foo_body : JsVal := JObj [("foo", JNum 1)].
Definition id_body : JsVal := JObj [("id", JNum 1)].

Definition no_headers : gmap string string := ∅.

Definition bad_request : Response :=
  {| status := 400; statusText := "Bad Request"; headers := no_headers;
     json := Fulfilled foo_body |}.

Definition server_error : Response :=
  {| status := 500; statusText := "Internal Server Error"; headers := no_headers;
     json := Fulfilled foo_body |}.

Definition success : Response :=
  {| status := 200; statusText := "OK"; headers := no_headers; json := Fulfilled id_body |}.

Definition empty_success : Response :=
  {| status := 200; statusText := "OK";
     headers := <["content-length" := "0"]> no_headers;
     json := Rejected {| Error_name := "SyntaxError";
                         Error_message := "Unexpected end of JSON input" |} |}.

Definition BarError : ErrorClass := defineError "" 400 bar_string (Some "BarError").
Definition FooError : ErrorClass := defineError "" 400 foo_number (Some "FooError").
Definition CrashError : ErrorClass := defineError "" 500 crashing None.
Definition ServerError : ErrorClass :=
  defineError "" 500 foo_number (Some "ServerError").

(** A transport that answers every request with the given response. *)
Definition answering (response : Response) : Fetch := fun _ _ => Fulfilled response.

Definition with_errors (errorKinds : list ErrorClass) : option FetcherRequestInit :=
  Some {| schema := None; errors := Some errorKinds; requestInit := [] |}.

Definition with_schema (successSchema : Schema) : option FetcherRequestInit :=
  Some {| schema := Some successSchema; errors := None; requestInit := [] |}.

End Examples.

(** ** Further vocabulary and scenarios *)

(** The calls that can follow the decoding of a body: a validation or the
    diagnostic of [parseResponse]. *)
Definition after_decode (call : Event) : bool :=
  match call with
  | CallValidate _ _ | CallConsoleError _ _ => true
  | CallFetch _ _ | CallJson _ => false
  end.


Module Scenarios.

(** A schema that coerces: it accepts an object whose [id] is a string of
    digits or a number, and outputs the object with [id] as a number. *)
Definition digit_value (c : ascii) : option Z :=
  let n := Z.of_nat (nat_of_ascii c) in
  if (48 <=? n) && (n <=? 57) then Some (n - 48) else None.

Fixpoint digits_value (acc : Z) (s : string) : option Z :=
  match s with
  | EmptyString => Some acc
  | String c rest =>
      match digit_value c with
      | Some d => digits_value (10 * acc + d) rest
      | None => None
      end
  end.

Definition numeric_id : Schema :=
  StandardSchema
    (fun v =>
       let invalid :=
         Fulfilled {| Result_value := JUndefined;
                      Result_issues :=
                        Some [{| Issue_message := "Expected number";
                                 Issue_path := [JStr "id"] |}] |} in
       match v with
       | JObj fields =>
           match Examples.field "id" fields with
           | Some (JNum n) =>
               Fulfilled {| Result_value := JObj [("id", JNum n)];
                            Result_issues := None |}
           | Some (JStr (String c rest)) =>
               match digits_value 0 (String c rest) with
               | Some n =>
                   Fulfilled {| Result_value := JObj [("id", JNum n)];
                                Result_issues := None |}
               | None => invalid
               end
           | _ => invalid
           end
       | _ => invalid
       end).

Definition string_id_body : JsVal := JObj [("id", JStr "42"); ("extra", JBool true)].

Definition created : Response :=
  {| status := 201; statusText := "Created"; headers := Examples.no_headers;
     json := Fulfilled string_id_body |}.

(** An ok response whose body is not JSON. *)
Definition broken_success : Response :=
  {| status := 200; statusText := "OK"; headers := Examples.no_headers;
     json := Rejected {| Error_name := "SyntaxError";
                         Error_message := "Unexpected token < in JSON" |} |}.

Definition NotFoundError : ErrorClass :=
  defineError "" 404 Examples.foo_number (Some "NotFoundError").

(** A response that is not ok, and two error kinds for its status: the
    first requires a field the body lacks, the second coerces the body. *)
Definition unprocessable : Response :=
  {| status := 422; statusText := "Unprocessable Entity";
     headers := Examples.no_headers; json := Fulfilled string_id_body |}.

Definition ShapeError : ErrorClass :=
  defineError "" 422 Examples.bar_string (Some "ShapeError").

Definition IdError : ErrorClass := defineError "" 422 numeric_id (Some "IdError").

(** A transport that fails. *)
Definition offline : Fetch :=
  fun _ _ => Rejected (ThrownError (new_Error "Network error")).

Definition with_both (successSchema : Schema) (errorKinds : list ErrorClass)
  : option FetcherRequestInit :=
  Some {| schema := Some successSchema; errors := Some errorKinds;
          requestInit := [("method", JStr "POST")] |}.

End Scenarios.

(** * Properties *)

(** ** Strings *)

Lemma prefix_app (sub post : string) : String.prefix sub (sub +:+ post) = true.
Proof.
  induction sub as [|a sub IH]; simpl.
  - by destruct post.
  - destruct (ascii_dec a a); [exact IH | congruence].
Qed.

Lemma append_assoc (a b c : string) : (a +:+ b) +:+ c = a +:+ (b +:+ c).
Proof.
  induction a as [|x a IH]; [done|].
  change (String x ((a +:+ b) +:+ c) = String x (a +:+ (b +:+ c))). by rewrite IH.
Qed.

Lemma includes_unfold (s sub : string) :
  includes s sub
  = String.prefix sub s
    || match s with EmptyString => false | String _ rest => includes rest sub end.
Proof. by destruct s. Qed.

Lemma includes_app (pre sub post : string) :
  includes (pre +:+ sub +:+ post) sub = true.
Proof.
  induction pre as [|a pre IH].
  - change (includes (sub +:+ post) sub = true).
    by rewrite includes_unfold, prefix_app.
  - change (includes (String a (pre +:+ sub +:+ post)) sub = true).
    rewrite includes_unfold, IH. apply orb_true_r.
Qed.


(** ** The monad of runs *)

Ltac run :=
  unfold outcome, calls, async_return, try_catch, await_call, emit, throw,
    mbind, mret, Async_bind, Async_ret in *;
  simpl in *.

(** ** [validateSchema] *)

Lemma validateSchema_calls (schema : Schema) (data : JsVal) :
  calls (validateSchema schema data) = [CallValidate schema data].
Proof.
  unfold validateSchema. run.
  destruct (validate schema data) as [result|t]; [|done].
  by destruct (Result_issues result).
Qed.

Lemma validateSchema_run (schema : Schema) (data : JsVal) :
  validateSchema schema data
  = (outcome (validateSchema schema data), [CallValidate schema data]).
Proof.
  rewrite <- validateSchema_calls. by destruct (validateSchema schema data).
Qed.

Lemma validateSchema_thrown (schema : Schema) (data : JsVal) (t : Thrown) :
  validate schema data = Rejected t ->
  validateSchema schema data = (Rejected t, [CallValidate schema data]).
Proof. intros Hv. unfold validateSchema. run. by rewrite Hv. Qed.

Lemma validateSchema_value (schema : Schema) (data : JsVal) (result : Result) :
  validate schema data = Fulfilled result ->
  Result_issues result = None ->
  validateSchema schema data = (Fulfilled (Result_value result), [CallValidate schema data]).
Proof. intros Hv Hi. unfold validateSchema. run. by rewrite Hv, Hi. Qed.

Lemma validateSchema_issues (schema : Schema) (data : JsVal) (result : Result)
    (issues : list Issue) :
  validate schema data = Fulfilled result ->
  Result_issues result = Some issues ->
  validateSchema schema data
  = (Rejected (ThrownSchemaValidationError
                 {| SVE_message := "Validation failed: " +:+ first_issue_message issues;
                    SVE_issues := issues |}),
     [CallValidate schema data]).
Proof. intros Hv Hi. unfold validateSchema. run. by rewrite Hv, Hi. Qed.

(** ** The candidate loop *)

Lemma rejects_dec (data : JsVal) (E : ErrorClass) :
  {rejects data E} + {~ rejects data E}.
Proof.
  unfold rejects.
  destruct (outcome (validateSchema (ErrorClass_schema E) data)) as [v|[e|e|e|v]].
  all: try (right; intros [e' He']; discriminate).
  left. by exists e.
Defined.

Lemma try_each_rejected (response : Response) (data : JsVal) (E : ErrorClass)
    (rest : list ErrorClass) :
  rejects data E ->
  try_each response data (E :: rest)
  = (outcome (try_each response data rest),
     CallValidate (ErrorClass_schema E) data :: calls (try_each response data rest)).
Proof.
  intros [e He]. simpl. unfold attempt.
  rewrite (validateSchema_run (ErrorClass_schema E) data), He. run.
  by destruct (try_each response data rest).
Qed.

Lemma try_each_skips (response : Response) (data : JsVal) (pre rest : list ErrorClass) :
  Forall (rejects data) pre ->
  try_each response data (pre ++ rest)
  = (outcome (try_each response data rest),
     validations data pre ++ calls (try_each response data rest)).
Proof.
  induction 1 as [|E pre HE Hpre IH].
  - simpl. by destruct (try_each response data rest).
  - change ((E :: pre) ++ rest) with (E :: (pre ++ rest)).
    rewrite try_each_rejected by done. by rewrite IH.
Qed.

Lemma try_each_accepted (response : Response) (data : JsVal) (E : ErrorClass)
    (rest : list ErrorClass) (v : JsVal) :
  accepts data E v ->
  try_each response data (E :: rest)
  = (Rejected (ThrownApiError (new E (statusText response) v response)),
     [CallValidate (ErrorClass_schema E) data]).
Proof.
  unfold accepts. intros He. simpl. unfold attempt.
  rewrite (validateSchema_run (ErrorClass_schema E) data), He. by run.
Qed.

Lemma try_each_thrown (response : Response) (data : JsVal) (E : ErrorClass)
    (rest : list ErrorClass) (t : Thrown) :
  outcome (validateSchema (ErrorClass_schema E) data) = Rejected t ->
  (forall e, t <> ThrownSchemaValidationError e) ->
  try_each response data (E :: rest)
  = (Rejected t, [CallValidate (ErrorClass_schema E) data]).
Proof.
  intros He Ht. simpl. unfold attempt.
  rewrite (validateSchema_run (ErrorClass_schema E) data), He. run.
  destruct t as [e|e|e|v]; try done. by destruct (Ht e).
Qed.

Lemma try_each_all_rejected (response : Response) (data : JsVal)
    (candidates : list ErrorClass) :
  Forall (rejects data) candidates ->
  try_each response data candidates = (Fulfilled tt, validations data candidates).
Proof.
  intros H. rewrite <- (app_nil_r candidates) at 1.
  rewrite try_each_skips by done. simpl. by rewrite app_nil_r.
Qed.

(** Either every candidate rejects, or there is a first one that does not. *)
Lemma first_not_rejecting (data : JsVal) (candidates : list ErrorClass) :
  Forall (rejects data) candidates \/
  exists pre E post,
    candidates = pre ++ E :: post /\ Forall (rejects data) pre /\ ~ rejects data E.
Proof.
  induction candidates as [|E l IH]; [by left|].
  destruct (rejects_dec data E) as [HE|HE].
  - destruct IH as [IH|(pre & E' & post & -> & Hpre & HE')].
    + left. by constructor.
    + right. exists (E :: pre), E', post. split_and!; [done|by constructor|done].
  - right. exists [], E, l. split_and!; [done|constructor|done].
Qed.

(** ** [handleErrorResponse] *)

Lemma matchingErrors_nonempty (response : Response)
    (errorTypes : option (list ErrorClass)) :
  matchingErrors response errorTypes <> [] -> no_length errorTypes = false.
Proof. by destruct errorTypes as [[|E l]|]. Qed.


Lemma handleErrorResponse_no_match (response : Response)
    (errorTypes : option (list ErrorClass)) :
  matchingErrors response errorTypes = [] ->
  handleErrorResponse response errorTypes
  = (Rejected (ThrownError (new_Error (request_failed response))), []).
Proof.
  intros H. unfold handleErrorResponse. rewrite H.
  by destruct (no_length errorTypes).
Qed.

Lemma handleErrorResponse_undecodable (response : Response)
    (errorTypes : option (list ErrorClass)) (e : JsError) :
  matchingErrors response errorTypes <> [] ->
  json response = Rejected e ->
  handleErrorResponse response errorTypes
  = (Rejected (ThrownError (new_Error (request_failed response))), [CallJson response]).
Proof.
  intros Hm Hj. unfold handleErrorResponse.
  rewrite (matchingErrors_nonempty _ _ Hm).
  destruct (matchingErrors response errorTypes) as [|E l]; [done|].
  unfold Response_json. rewrite Hj. by run.
Qed.

Lemma handleErrorResponse_decoded (response : Response)
    (errorTypes : option (list ErrorClass)) (body : JsVal) :
  matchingErrors response errorTypes <> [] ->
  json response = Fulfilled body ->
  handleErrorResponse response errorTypes
  = (match outcome (try_each response body (matchingErrors response errorTypes)) with
     | Fulfilled _ =>
         Rejected (ThrownError
                     (new_Error (request_failed response +:+ " - No matching error schema")))
     | Rejected t => Rejected t
     end,
     CallJson response :: calls (try_each response body (matchingErrors response errorTypes))).
Proof.
  intros Hm Hj. unfold handleErrorResponse.
  rewrite (matchingErrors_nonempty _ _ Hm).
  remember (matchingErrors response errorTypes) as candidates eqn:Hc.
  cbv zeta. rewrite bool_decide_false by by destruct candidates.
  unfold Response_json. rewrite Hj. clear Hc Hm. run.
  destruct (try_each response body candidates) as [[[]|t] tr];
    simpl; by rewrite ?app_nil_r.
Qed.

(** ** [fetcher] *)

Lemma fetcher_transport_failed (fetch : Fetch) (input : RequestInfo)
    (init : option FetcherRequestInit) (t : Thrown) :
  fetch input (requestInit (init_or_empty init)) = Rejected t ->
  fetcher fetch input init
  = (Rejected (rethrown t), [CallFetch input (requestInit (init_or_empty init))]).
Proof. intros Hf. unfold fetcher, request. rewrite Hf. by run. Qed.

Lemma fetcher_not_ok (fetch : Fetch) (input : RequestInfo)
    (init : option FetcherRequestInit) (response : Response) :
  fetch input (requestInit (init_or_empty init)) = Fulfilled response ->
  ok response = false ->
  fetcher fetch input init
  = (match outcome (handleErrorResponse response (errors (init_or_empty init))) with
     | Fulfilled x => unreachable x
     | Rejected t => Rejected (rethrown t)
     end,
     CallFetch input (requestInit (init_or_empty init))
       :: calls (handleErrorResponse response (errors (init_or_empty init)))).
Proof.
  intros Hf Hok. unfold fetcher, request. rewrite Hf. run. rewrite Hok. simpl.
  destruct (handleErrorResponse response (errors (init_or_empty init)))
    as [[[]|t] tr].
  simpl. by rewrite app_nil_r.
Qed.

Lemma fetcher_ok (fetch : Fetch) (input : RequestInfo)
    (init : option FetcherRequestInit) (response : Response) :
  fetch input (requestInit (init_or_empty init)) = Fulfilled response ->
  ok response = true ->
  fetcher fetch input init
  = (outcome (parseResponse response (schema (init_or_empty init))),
     CallFetch input (requestInit (init_or_empty init))
       :: calls (parseResponse response (schema (init_or_empty init)))).
Proof.
  intros Hf Hok. unfold fetcher, request. rewrite Hf. run. rewrite Hok. simpl.
  by destruct (parseResponse response (schema (init_or_empty init))).
Qed.

(** ** Selection of the candidates *)

Lemma matchingErrors_sublist (response : Response)
    (errorTypes : option (list ErrorClass)) :
  matchingErrors response errorTypes `sublist_of` default [] errorTypes.
Proof. apply sublist_filter. Qed.

Lemma matchingErrors_elem_of (response : Response)
    (errorTypes : option (list ErrorClass)) (E : ErrorClass) :
  E ∈ matchingErrors response errorTypes
  <-> E ∈ default [] errorTypes /\ ErrorClass_statusCode E = status response.
Proof. unfold matchingErrors. rewrite list_elem_of_filter. tauto. Qed.

Lemma validations_snoc (data : JsVal) (pre : list ErrorClass) (E : ErrorClass) :
  validations data pre ++ [CallValidate (ErrorClass_schema E) data]
  = validations data (pre ++ [E]).
Proof. unfold validations. by rewrite map_app. Qed.

(** The failure path up to the first candidate that does not reject. *)
Lemma handleErrorResponse_first (response : Response)
    (errorTypes : option (list ErrorClass)) (body : JsVal)
    (pre post : list ErrorClass) (E : ErrorClass) (t : Thrown) :
  json response = Fulfilled body ->
  matchingErrors response errorTypes = pre ++ E :: post ->
  Forall (rejects body) pre ->
  try_each response body (E :: post)
  = (Rejected t, [CallValidate (ErrorClass_schema E) body]) ->
  handleErrorResponse response errorTypes
  = (Rejected t, CallJson response :: validations body (pre ++ [E])).
Proof.
  intros Hj Hm Hpre HE.
  assert (matchingErrors response errorTypes <> []) by (rewrite Hm; by destruct pre).
  rewrite (handleErrorResponse_decoded _ _ body), Hm by done.
  rewrite try_each_skips, HE by done. simpl.
  by rewrite validations_snoc.
Qed.

(** C1: on a response that is not ok, the candidates are the error kinds
    whose [statusCode] equals the response status, in the caller's order; the
    decoded body is validated against them in that order; the candidates that
    reject are skipped, the first one that accepts is instantiated and
    thrown, and no later candidate is validated.  The thrown error is an
    instance of that candidate and of none of the candidates skipped before
    it. *)
Theorem first_accepting_candidate_thrown
    (fetch : Fetch) (input : RequestInfo) (init : option FetcherRequestInit)
    (response : Response) (body v : JsVal)
    (pre post : list ErrorClass) (E : ErrorClass) :
  let errorKinds := errors (init_or_empty init) in
  let thrown := ThrownApiError (new E (statusText response) v response) in
  fetch input (requestInit (init_or_empty init)) = Fulfilled response ->
  ok response = false ->
  json response = Fulfilled body ->
  matchingErrors response errorKinds = pre ++ E :: post ->
  Forall (rejects body) pre ->
  accepts body E v ->
  matchingErrors response errorKinds `sublist_of` default [] errorKinds
  /\ (forall E', E' ∈ matchingErrors response errorKinds
                 <-> E' ∈ default [] errorKinds
                     /\ ErrorClass_statusCode E' = status response)
  /\ handleErrorResponse response errorKinds
     = (Rejected thrown, CallJson response :: validations body (pre ++ [E]))
  /\ fetcher fetch input init
     = (Rejected thrown,
        CallFetch input (requestInit (init_or_empty init))
          :: CallJson response :: validations body (pre ++ [E]))
  /\ instanceof thrown E
  /\ (forall E', E' ∈ pre -> ~ instanceof thrown E').
Proof.
  intros errorKinds thrown Hf Hok Hj Hm Hpre HE.
  assert (handleErrorResponse response errorKinds
          = (Rejected thrown, CallJson response :: validations body (pre ++ [E])))
    as Hh.
  { eapply handleErrorResponse_first; eauto using try_each_accepted. }
  split_and!.
  - apply matchingErrors_sublist.
  - apply matchingErrors_elem_of.
  - exact Hh.
  - rewrite (fetcher_not_ok _ _ _ response) by done.
    fold errorKinds. by rewrite Hh.
  - done.
  - intros E' HE' Hinst. simpl in Hinst. subst E'.
    rewrite Forall_forall in Hpre. destruct (Hpre _ HE') as [e He].
    unfold accepts in HE. congruence.
Qed.

(** C5: when the dispatch matches a candidate (it has the response status,
    the candidates before it reject the body, and its schema's [validate]
    returns for the body a result without issues), the thrown value is an
    instance of that kind whose [data] is the [value] of that result, the
    schema's output, whose [statusCode] is the response status, whose
    [message] is the response's status text and whose [response] is the
    response object. *)
Theorem matched_error_fields
    (fetch : Fetch) (input : RequestInfo) (init : option FetcherRequestInit)
    (response : Response) (body : JsVal) (result : Result)
    (pre post : list ErrorClass) (E : ErrorClass) :
  fetch input (requestInit (init_or_empty init)) = Fulfilled response ->
  ok response = false ->
  json response = Fulfilled body ->
  matchingErrors response (errors (init_or_empty init)) = pre ++ E :: post ->
  Forall (rejects body) pre ->
  validate (ErrorClass_schema E) body = Fulfilled result ->
  Result_issues result = None ->
  exists e,
    outcome (handleErrorResponse response (errors (init_or_empty init)))
    = Rejected (ThrownApiError e)
    /\ outcome (fetcher fetch input init) = Rejected (ThrownApiError e)
    /\ ApiError_constructor e = E
    /\ ApiError_data e = Result_value result
    /\ ApiError_statusCode e = status response
    /\ ApiError_message e = statusText response
    /\ ApiError_response e = response.
Proof.
  intros Hf Hok Hj Hm Hpre Hv Hi.
  assert (accepts body E (Result_value result)) as HE.
  { unfold accepts, outcome. by rewrite (validateSchema_value _ _ result). }
  exists (new E (statusText response) (Result_value result) response).
  rewrite (fetcher_not_ok _ _ _ response) by done.
  erewrite handleErrorResponse_first; eauto using try_each_accepted.
  split_and!; try done.
  assert (E ∈ matchingErrors response (errors (init_or_empty init))) as Hin.
  { rewrite Hm. set_solver. }
  apply matchingErrors_elem_of in Hin. by destruct Hin.
Qed.

(** On the failure path a [SchemaValidationError] only moves the loop to
    the next candidate: [handleErrorResponse] never throws one, so the branch
    of [fetcher]'s [catch] block for it is reached only if the transport
    itself rejects with one. *)
Lemma try_each_drops_rejections (response : Response) (data : JsVal)
    (candidates : list ErrorClass) (e : SchemaValidationError) :
  outcome (try_each response data candidates) <> Rejected (ThrownSchemaValidationError e).
Proof.
  induction candidates as [|E rest IH]; [done|].
  destruct (rejects_dec data E) as [HE|HE].
  - by rewrite try_each_rejected.
  - destruct (outcome (validateSchema (ErrorClass_schema E) data)) as [v|t] eqn:Ht.
    + by erewrite try_each_accepted.
    + assert (forall e', t <> ThrownSchemaValidationError e') as Hne.
      { intros e' ->. apply HE. by exists e'. }
      rewrite (try_each_thrown _ _ _ _ t) by done. simpl. intros [= ->].
      by destruct (Hne e).
Qed.

Lemma handleErrorResponse_drops_rejections (response : Response)
    (errorTypes : option (list ErrorClass)) (e : SchemaValidationError) :
  outcome (handleErrorResponse response errorTypes)
  <> Rejected (ThrownSchemaValidationError e).
Proof.
  destruct (decide (matchingErrors response errorTypes = [])) as [Hm|Hm].
  - by rewrite handleErrorResponse_no_match.
  - destruct (json response) as [body|err] eqn:Hj.
    + rewrite (handleErrorResponse_decoded _ _ body) by done. simpl.
      pose proof (try_each_drops_rejections response body
                    (matchingErrors response errorTypes) e) as Hloop.
      destruct (outcome (try_each response body (matchingErrors response errorTypes)));
        [done|congruence].
    + by rewrite (handleErrorResponse_undecodable _ _ err).
Qed.

Lemma request_validation_error (fetch : Fetch) (input : RequestInfo)
    (init : option FetcherRequestInit) (e : SchemaValidationError) :
  outcome (request fetch input init) = Rejected (ThrownSchemaValidationError e) ->
  fetch input (requestInit (init_or_empty init))
  = Rejected (ThrownSchemaValidationError e).
Proof.
  unfold request.
  destruct (fetch input (requestInit (init_or_empty init))) as [response|t]; run.
  - destruct (ok response); simpl; [done|].
    pose proof (handleErrorResponse_drops_rejections response
                  (errors (init_or_empty init)) e) as Hh.
    destruct (handleErrorResponse response (errors (init_or_empty init)))
      as [[[]|t] tr]. simpl in *. congruence.
  - congruence.
Qed.

(** ** [parseResponse] *)

Lemma parseResponse_no_body (response : Response) (schema : option Schema) :
  status response = 204 \/ headers_get response "content-length" = Some "0" ->
  parseResponse response schema = (Fulfilled JNull, []).
Proof.
  intros H. unfold parseResponse.
  assert (bool_decide (status response = 204)
          || bool_decide (headers_get response "content-length" = Some "0") = true)
    as ->; [|done].
  apply orb_true_iff. destruct H; [left|right]; by apply bool_decide_eq_true.
Qed.

Lemma parseResponse_body (response : Response) (schema : option Schema) (data : JsVal) :
  status response <> 204 ->
  headers_get response "content-length" <> Some "0" ->
  json response = Fulfilled data ->
  parseResponse response schema
  = match schema with
    | None => (Fulfilled data, [CallJson response])
    | Some schema =>
        match outcome (validateSchema schema data) with
        | Fulfilled v => (Fulfilled v, [CallJson response; CallValidate schema data])
        | Rejected (ThrownSchemaValidationError e) =>
            (Rejected (ThrownSchemaValidationError e),
             [CallJson response; CallValidate schema data;
              CallConsoleError (SVE_issues e) data])
        | Rejected t => (Rejected t, [CallJson response; CallValidate schema data])
        end
    end.
Proof.
  intros Hs Hh Hj. unfold parseResponse, Response_json.
  rewrite !bool_decide_false, Hj by done. simpl.
  destruct schema as [schema|]; [|done].
  rewrite (validateSchema_run schema data).
  destruct (outcome (validateSchema schema data)) as [v|[e|e|e|v]]; by run.
Qed.

(** C2: on an ok response that has a body (the status is not 204 and the
    [content-length] header is not ["0"]), with a success schema whose result
    for the decoded body carries a non-empty issue list, [fetcher] rejects
    with the very [SchemaValidationError] that [validateSchema] threw, and
    the issue list of that error is the schema's and is not empty. *)
Theorem rejected_body_throws_validation_error
    (fetch : Fetch) (input : RequestInfo) (init : option FetcherRequestInit)
    (response : Response) (successSchema : Schema) (body : JsVal)
    (result : Result) (issues : list Issue) :
  fetch input (requestInit (init_or_empty init)) = Fulfilled response ->
  ok response = true ->
  status response <> 204 ->
  headers_get response "content-length" <> Some "0" ->
  json response = Fulfilled body ->
  schema (init_or_empty init) = Some successSchema ->
  validate successSchema body = Fulfilled result ->
  Result_issues result = Some issues ->
  issues <> [] ->
  exists e,
    outcome (validateSchema successSchema body) = Rejected (ThrownSchemaValidationError e)
    /\ fetcher fetch input init
       = (Rejected (ThrownSchemaValidationError e),
          [CallFetch input (requestInit (init_or_empty init));
           CallJson response;
           CallValidate successSchema body;
           CallConsoleError issues body])
    /\ SVE_message e = "Validation failed: " +:+ first_issue_message issues
    /\ SVE_issues e = issues
    /\ SVE_issues e <> [].
Proof.
  intros Hf Hok Hs Hh Hj Hsch Hv Hi Hne.
  eexists. split; [by rewrite (validateSchema_issues _ _ result issues)|].
  split; [|done].
  rewrite (fetcher_ok _ _ _ response), Hsch by done.
  rewrite (parseResponse_body _ _ body) by done.
  by rewrite (validateSchema_issues _ _ result issues).
Qed.

(** C4: on an ok response whose status is 204 or whose [content-length]
    header is ["0"], [fetcher] resolves to [null]; the only call made is the
    transport call: the body is not decoded and no schema is invoked,
    whatever schema was supplied. *)
Theorem no_content_resolves_to_null
    (fetch : Fetch) (input : RequestInfo) (init : option FetcherRequestInit)
    (response : Response) :
  fetch input (requestInit (init_or_empty init)) = Fulfilled response ->
  ok response = true ->
  status response = 204 \/ headers_get response "content-length" = Some "0" ->
  fetcher fetch input init
  = (Fulfilled JNull, [CallFetch input (requestInit (init_or_empty init))]).
Proof.
  intros Hf Hok H.
  rewrite (fetcher_ok _ _ _ response) by done.
  by rewrite parseResponse_no_body.
Qed.

(** C10: when the schema's [validate] returns a result, [validateSchema]
    resolves exactly when the result has no [issues] field, and then with the
    result's [value]; when an [issues] field is present, even an empty list,
    it throws a [SchemaValidationError] whose [issues] is that list and whose
    message is ["Validation failed: "] followed by the first issue's message,
    or by ["Unknown error"] when there is no first issue (or its message is
    empty). *)
Theorem validateSchema_by_issues (schema : Schema) (data : JsVal) (result : Result) :
  validate schema data = Fulfilled result ->
  ((exists v, outcome (validateSchema schema data) = Fulfilled v)
   <-> Result_issues result = None)
  /\ (Result_issues result = None ->
      outcome (validateSchema schema data) = Fulfilled (Result_value result))
  /\ (forall issues, Result_issues result = Some issues ->
        outcome (validateSchema schema data)
        = Rejected (ThrownSchemaValidationError
                      {| SVE_message := "Validation failed: " +:+ first_issue_message issues;
                         SVE_issues := issues |}))
  /\ first_issue_message [] = "Unknown error"
  /\ (forall issue rest, Issue_message issue <> "" ->
        first_issue_message (issue :: rest) = Issue_message issue)
  /\ (forall issue rest, Issue_message issue = "" ->
        first_issue_message (issue :: rest) = "Unknown error").
Proof.
  intros Hv. split_and!.
  - destruct (Result_issues result) as [issues|] eqn:Hi.
    + rewrite (validateSchema_issues _ _ result issues) by done.
      split; [intros [v Hv']; discriminate|done].
    + rewrite (validateSchema_value _ _ result) by done.
      split; [done|by eexists].
  - intros Hi. by rewrite (validateSchema_value _ _ result).
  - intros issues Hi. by rewrite (validateSchema_issues _ _ result issues).
  - done.
  - intros issue rest Hm. unfold first_issue_message. simpl.
    by destruct (Issue_message issue).
  - intros issue rest Hm. unfold first_issue_message. simpl. by rewrite Hm.
Qed.

(** C6: when, in the candidate loop, the validation of a candidate throws
    an error that is not a [SchemaValidationError] (the candidates before it
    having rejected), [handleErrorResponse] throws that error and validates
    no later candidate; [fetcher] makes no further call either and rejects
    with what its [catch] block makes of that error.  [validateSchema] lets
    an error thrown by the schema's [validate] through as it is, and the
    only [SchemaValidationError] it makes itself comes from a result that
    carries an [issues] list. *)
Theorem other_error_aborts_matching
    (fetch : Fetch) (input : RequestInfo) (init : option FetcherRequestInit)
    (response : Response) (body : JsVal)
    (pre post : list ErrorClass) (E : ErrorClass) (t : Thrown)
    (schema : Schema) (data : JsVal) :
  let errorKinds := errors (init_or_empty init) in
  (json response = Fulfilled body ->
   matchingErrors response errorKinds = pre ++ E :: post ->
   Forall (rejects body) pre ->
   outcome (validateSchema (ErrorClass_schema E) body) = Rejected t ->
   (forall e, t <> ThrownSchemaValidationError e) ->
   handleErrorResponse response errorKinds
   = (Rejected t, CallJson response :: validations body (pre ++ [E]))
   /\ (fetch input (requestInit (init_or_empty init)) = Fulfilled response ->
       ok response = false ->
       fetcher fetch input init
       = (Rejected (rethrown t),
          CallFetch input (requestInit (init_or_empty init))
            :: CallJson response :: validations body (pre ++ [E]))))
  /\ (validate schema data = Rejected t ->
      validateSchema schema data = (Rejected t, [CallValidate schema data]))
  /\ (forall result, validate schema data = Fulfilled result ->
      forall e, outcome (validateSchema schema data)
                = Rejected (ThrownSchemaValidationError e) ->
                Result_issues result = Some (SVE_issues e)).
Proof.
  intros errorKinds. split_and!.
  - intros Hj Hm Hpre Ht Hne.
    assert (handleErrorResponse response errorKinds
            = (Rejected t, CallJson response :: validations body (pre ++ [E])))
      as Hh.
    { eapply handleErrorResponse_first; eauto using try_each_thrown. }
    split; [done|]. intros Hf Hok.
    rewrite (fetcher_not_ok _ _ _ response) by done.
    fold errorKinds. by rewrite Hh.
  - apply validateSchema_thrown.
  - intros result Hv e He.
    destruct (Result_issues result) as [issues|] eqn:Hi.
    + rewrite (validateSchema_issues _ _ result issues) in He by done.
      simpl in He. by simplify_eq.
    + rewrite (validateSchema_value _ _ result) in He by done. discriminate.
Qed.

(** C9: an [ApiError] thrown inside [fetcher] reaches the caller as the
    same instance.  Both [catch] blocks throw an [ApiError] again as it is;
    so the instance thrown in the candidate loop (made there from the
    accepting candidate, or thrown by a schema) is what
    [handleErrorResponse] throws, and the instance thrown in the [try] block
    of [fetcher], or the one the returned promise rejects with, is what
    [fetcher] rejects with. *)
Theorem api_error_reaches_caller
    (fetch : Fetch) (input : RequestInfo) (init : option FetcherRequestInit)
    (response : Response) (body : JsVal)
    (pre post : list ErrorClass) (E : ErrorClass) (e : ApiError) :
  let errorKinds := errors (init_or_empty init) in
  attempt_failed (ThrownApiError e) = throw (ThrownApiError e)
  /\ rethrown (ThrownApiError e) = ThrownApiError e
  /\ (json response = Fulfilled body ->
      matchingErrors response errorKinds = pre ++ E :: post ->
      Forall (rejects body) pre ->
      outcome (attempt response body E) = Rejected (ThrownApiError e) ->
      outcome (handleErrorResponse response errorKinds) = Rejected (ThrownApiError e)
      /\ (fetch input (requestInit (init_or_empty init)) = Fulfilled response ->
          ok response = false ->
          outcome (fetcher fetch input init) = Rejected (ThrownApiError e)))
  /\ (outcome (request fetch input init) = Rejected (ThrownApiError e) ->
      outcome (fetcher fetch input init) = Rejected (ThrownApiError e))
  /\ (forall promise,
        outcome (request fetch input init) = Fulfilled promise ->
        outcome promise = Rejected (ThrownApiError e) ->
        outcome (fetcher fetch input init) = Rejected (ThrownApiError e)).
Proof.
  intros errorKinds. split_and!; try done.
  - intros Hj Hm Hpre He.
    assert (try_each response body (E :: post)
            = (Rejected (ThrownApiError e), [CallValidate (ErrorClass_schema E) body]))
      as Ht.
    { unfold attempt in He. simpl. unfold attempt.
      rewrite (validateSchema_run (ErrorClass_schema E) body) in He |- *.
      destruct (outcome (validateSchema (ErrorClass_schema E) body)) as [v|t];
        run; by simplify_eq. }
    assert (outcome (handleErrorResponse response errorKinds)
            = Rejected (ThrownApiError e)) as Hh.
    { by erewrite handleErrorResponse_first. }
    split; [done|]. intros Hf Hok.
    rewrite (fetcher_not_ok _ _ _ response) by done.
    fold errorKinds. by rewrite Hh.
  - unfold fetcher. destruct (request fetch input init) as [[p|t] tr]; run.
    + discriminate.
    + by intros [= ->].
  - intros promise. unfold fetcher.
    destruct (request fetch input init) as [[p|t] tr]; run; [|discriminate].
    intros [= ->]. by destruct promise as [o tr'].
Qed.

(** C7: for every status code (any integer), schema and optional name,
    the class [defineError] returns has the given status code and the given
    schema as static fields, read from the class itself, and each instance
    made from it has the fields [statusCode], [data], [response] and
    [message] of a typed error. *)
Theorem defineError_statics_and_shape
    (class_name : string) (statusCode : Z) (schema : Schema) (name : option string)
    (message : string) (data : JsVal) (response : Response) :
  let E := defineError class_name statusCode schema name in
  let e := new E message data response in
  ErrorClass_statusCode E = statusCode
  /\ ErrorClass_schema E = schema
  /\ ApiError_statusCode e = statusCode
  /\ ApiError_data e = data
  /\ ApiError_response e = response
  /\ ApiError_message e = message
  /\ ApiError_constructor e = E.
Proof. by split_and!. Qed.

(** Whatever name the runtime gives to the class expression, it cannot be
    both that every given name is carried and that the default name is not
    empty: [if (name)] treats the empty string as no name. *)
Lemma given_and_default_name (class_name : string) (statusCode : Z) (schema : Schema)
    (message : string) (data : JsVal) (response : Response) :
  let named name := new (defineError class_name statusCode schema name)
                        message data response in
  ~ ((forall name, ApiError_name (named (Some name)) = name)
     /\ ApiError_name (named None) <> "").
Proof. intros named [Hgiven Hdefault]. specialize (Hgiven ""). by simpl in *. Qed.

(** C8 (amended): an instance of a class made with a non-empty name has
    that name; an instance of a class made without a name, or with the empty
    string, has the [name] of its constructor, which is the [name] property
    the runtime gave to the class expression of [defineError] and is not
    chosen by [defineError]. *)
Theorem instance_name
    (class_name : string) (statusCode : Z) (schema : Schema)
    (message : string) (data : JsVal) (response : Response) :
  let named name := new (defineError class_name statusCode schema name)
                        message data response in
  (forall name, name <> "" -> ApiError_name (named (Some name)) = name)
  /\ ApiError_name (named None) = class_name
  /\ ApiError_name (named (Some "")) = class_name
  /\ (forall name, ErrorClass_name (ApiError_constructor (named name)) = class_name).
Proof.
  intros named. split_and!; try done.
  intros name Hne. unfold named, new. simpl. by destruct name.
Qed.

(** ** The generic failure *)






(** ** The statements at concrete inputs *)

Lemma bar_rejects_foo_body : rejects Examples.foo_body Examples.BarError.
Proof. eexists. reflexivity. Defined.

Lemma first_accepting_candidate_thrown_witness :
  fetcher (Examples.answering Examples.bad_request) "/api/items"
          (Examples.with_errors [Examples.BarError; Examples.FooError])
  = (Rejected (ThrownApiError
                 (new Examples.FooError "Bad Request" Examples.foo_body
                      Examples.bad_request)),
     [CallFetch "/api/items" [];
      CallJson Examples.bad_request;
      CallValidate Examples.bar_string Examples.foo_body;
      CallValidate Examples.foo_number Examples.foo_body])
  /\ ~ instanceof (ThrownApiError
                     (new Examples.FooError "Bad Request" Examples.foo_body
                          Examples.bad_request))
                  Examples.BarError.
Proof.
  destruct (first_accepting_candidate_thrown
              (Examples.answering Examples.bad_request) "/api/items"
              (Examples.with_errors [Examples.BarError; Examples.FooError])
              Examples.bad_request Examples.foo_body Examples.foo_body
              [Examples.BarError] [] Examples.FooError
              eq_refl eq_refl eq_refl eq_refl
              (Forall_cons_2 _ _ _ bar_rejects_foo_body (Forall_nil_2 _))
              eq_refl)
    as (_ & _ & _ & Hfetcher & _ & Hnot).
  split; [exact Hfetcher|].
  apply Hnot. apply list_elem_of_here.
Defined.

Lemma shape_rejects_string_id_body :
  rejects Scenarios.string_id_body Scenarios.ShapeError.
Proof. eexists. reflexivity. Defined.

Lemma matched_error_fields_witness :
  json Scenarios.unprocessable
  = Fulfilled (JObj [("id", JStr "42"); ("extra", JBool true)])
  /\ exists e,
       outcome (handleErrorResponse Scenarios.unprocessable
                  (Some [Scenarios.ShapeError; Scenarios.IdError]))
       = Rejected (ThrownApiError e)
       /\ outcome (fetcher (Examples.answering Scenarios.unprocessable) "/api/users"
                           (Examples.with_errors [Scenarios.ShapeError; Scenarios.IdError]))
          = Rejected (ThrownApiError e)
       /\ ApiError_constructor e = Scenarios.IdError
       /\ ApiError_data e = JObj [("id", JNum 42)]
       /\ ApiError_statusCode e = 422
       /\ ApiError_message e = "Unprocessable Entity"
       /\ ApiError_response e = Scenarios.unprocessable.
Proof.
  split; [reflexivity|].
  exact (matched_error_fields
           (Examples.answering Scenarios.unprocessable) "/api/users"
           (Examples.with_errors [Scenarios.ShapeError; Scenarios.IdError])
           Scenarios.unprocessable Scenarios.string_id_body
           {| Result_value := JObj [("id", JNum 42)]; Result_issues := None |}
           [Scenarios.ShapeError] [] Scenarios.IdError
           eq_refl eq_refl eq_refl eq_refl
           (Forall_cons_2 _ _ _ shape_rejects_string_id_body (Forall_nil_2 _))
           eq_refl eq_refl).
Defined.

Lemma rejected_body_throws_validation_error_witness :
  exists e,
    outcome (validateSchema Examples.id_string Examples.id_body)
    = Rejected (ThrownSchemaValidationError e)
    /\ fetcher (Examples.answering Examples.success) "/api/users/1"
               (Examples.with_schema Examples.id_string)
       = (Rejected (ThrownSchemaValidationError e),
          [CallFetch "/api/users/1" [];
           CallJson Examples.success;
           CallValidate Examples.id_string Examples.id_body;
           CallConsoleError
             [{| Issue_message := "Invalid type"; Issue_path := [JStr "id"] |}]
             Examples.id_body])
    /\ SVE_message e = "Validation failed: Invalid type"
    /\ SVE_issues e = [{| Issue_message := "Invalid type"; Issue_path := [JStr "id"] |}]
    /\ SVE_issues e <> [].
Proof.
  apply (rejected_body_throws_validation_error
           (Examples.answering Examples.success) "/api/users/1"
           (Examples.with_schema Examples.id_string)
           Examples.success Examples.id_string Examples.id_body
           {| Result_value := JUndefined;
              Result_issues :=
                Some [{| Issue_message := "Invalid type"; Issue_path := [JStr "id"] |}] |}
           [{| Issue_message := "Invalid type"; Issue_path := [JStr "id"] |}]).
  all: try reflexivity.
  all: intros H; vm_compute in H; discriminate H.
Defined.

Lemma no_content_resolves_to_null_witness :
  ok Examples.empty_success = true
  /\ headers_get Examples.empty_success "content-length" = Some "0"
  /\ fetcher (Examples.answering Examples.empty_success) "/api/ping"
             (Examples.with_schema Examples.id_string)
     = (Fulfilled JNull, [CallFetch "/api/ping" []]).
Proof.
  split; [reflexivity|]. split; [vm_compute; reflexivity|].
  apply (no_content_resolves_to_null
           (Examples.answering Examples.empty_success) "/api/ping"
           (Examples.with_schema Examples.id_string) Examples.empty_success).
  - reflexivity.
  - reflexivity.
  - right. vm_compute. reflexivity.
Defined.

Lemma other_error_aborts_matching_witness :
  handleErrorResponse Examples.server_error
    (Some [Examples.CrashError; Examples.ServerError])
  = (Rejected (ThrownError {| Error_name := "TypeError"; Error_message := "boom" |}),
     [CallJson Examples.server_error;
      CallValidate Examples.crashing Examples.foo_body])
  /\ fetcher (Examples.answering Examples.server_error) "/api/items"
             (Examples.with_errors [Examples.CrashError; Examples.ServerError])
     = (Rejected (ThrownError (new_Error "Request failed: boom")),
        [CallFetch "/api/items" [];
         CallJson Examples.server_error;
         CallValidate Examples.crashing Examples.foo_body])
  /\ validateSchema Examples.crashing Examples.foo_body
     = (Rejected (ThrownError {| Error_name := "TypeError"; Error_message := "boom" |}),
        [CallValidate Examples.crashing Examples.foo_body]).
Proof.
  destruct (other_error_aborts_matching
              (Examples.answering Examples.server_error) "/api/items"
              (Examples.with_errors [Examples.CrashError; Examples.ServerError])
              Examples.server_error Examples.foo_body
              [] [Examples.ServerError] Examples.CrashError
              (ThrownError {| Error_name := "TypeError"; Error_message := "boom" |})
              Examples.crashing Examples.foo_body)
    as (Hloop & Hadapter & _).
  destruct Hloop as [Hh Hf].
  - reflexivity.
  - reflexivity.
  - apply Forall_nil_2.
  - reflexivity.
  - intros e H. discriminate H.
  - split; [exact Hh|]. split; [|apply Hadapter; reflexivity].
    apply Hf; reflexivity.
Defined.

Lemma api_error_reaches_caller_witness :
  outcome (attempt Examples.bad_request Examples.foo_body Examples.FooError)
  = Rejected (ThrownApiError
                (new Examples.FooError "Bad Request" Examples.foo_body
                     Examples.bad_request))
  /\ outcome (fetcher (Examples.answering Examples.bad_request) "/api/items"
                      (Examples.with_errors [Examples.BarError; Examples.FooError]))
     = Rejected (ThrownApiError
                   (new Examples.FooError "Bad Request" Examples.foo_body
                        Examples.bad_request)).
Proof.
  split; [reflexivity|].
  destruct (api_error_reaches_caller
              (Examples.answering Examples.bad_request) "/api/items"
              (Examples.with_errors [Examples.BarError; Examples.FooError])
              Examples.bad_request Examples.foo_body
              [Examples.BarError] [] Examples.FooError
              (new Examples.FooError "Bad Request" Examples.foo_body
                   Examples.bad_request))
    as (_ & _ & Hloop & _).
  destruct Hloop as [_ Hf].
  - reflexivity.
  - reflexivity.
  - exact (Forall_cons_2 _ _ _ bar_rejects_foo_body (Forall_nil_2 _)).
  - reflexivity.
  - apply Hf; reflexivity.
Defined.

Lemma validateSchema_by_issues_witness :
  validate Examples.no_issue Examples.foo_body
  = Fulfilled {| Result_value := JUndefined; Result_issues := Some [] |}
  /\ outcome (validateSchema Examples.no_issue Examples.foo_body)
     = Rejected (ThrownSchemaValidationError
                   {| SVE_message := "Validation failed: Unknown error";
                      SVE_issues := [] |}).
Proof.
  split; [reflexivity|].
  destruct (validateSchema_by_issues Examples.no_issue Examples.foo_body
              {| Result_value := JUndefined; Result_issues := Some [] |} eq_refl)
    as (_ & _ & Hissues & _).
  apply (Hissues []). reflexivity.
Defined.

Lemma instance_name_witness :
  ApiError_name (new (defineError "" 400 Examples.bar_string (Some "CustomError"))
                     "Bad request" Examples.foo_body Examples.bad_request)
  = "CustomError".
Proof.
  destruct (instance_name "" 400 Examples.bar_string
              "Bad request" Examples.foo_body Examples.bad_request)
    as (Hnamed & _).
  apply Hnamed. intros H. discriminate H.
Defined.



(** The fifth case of [generic_failure_cases] at a concrete input: a
    candidate whose schema throws makes [fetcher] reject with a generic
    failure although error kinds were given, one of them has the response
    status, the body decodes and not every candidate rejects it; the message
    does not contain the status code. *)
Lemma crashing_schema_gives_generic_failure :
  outcome (fetcher (Examples.answering Examples.server_error) "/api/items"
                   (Examples.with_errors [Examples.CrashError; Examples.ServerError]))
  = Rejected (ThrownError (new_Error "Request failed: boom"))
  /\ includes "Request failed: boom" (Number_toString (status Examples.server_error))
     = false
  /\ ~ (no_length (Some [Examples.CrashError; Examples.ServerError]) = true
        \/ matchingErrors Examples.server_error
             (Some [Examples.CrashError; Examples.ServerError]) = []
        \/ (exists e, json Examples.server_error = Rejected e)
        \/ (exists body,
              json Examples.server_error = Fulfilled body
              /\ Forall (rejects body)
                   (matchingErrors Examples.server_error
                      (Some [Examples.CrashError; Examples.ServerError])))).
Proof.
  split; [reflexivity|]. split; [reflexivity|].
  intros [H|[H|[[e H]|[body [Hj H]]]]]; try discriminate H.
  injection Hj as <-.
  apply Forall_cons in H as [[e He] _]. discriminate He.
Qed.

(** C8, as stated, fails: where the runtime leaves the class expression
    without a name, an instance of a kind made without a name has the empty
    name; where the runtime names it, an instance of a kind made with the
    empty string as its name has the runtime's name. *)
Lemma default_name_left_to_runtime :
  ApiError_name (new (defineError "" 404 Examples.bar_string None)
                     "Not Found" Examples.foo_body Examples.bad_request)
  = ""
  /\ ApiError_name (new (defineError "_a" 404 Examples.bar_string (Some ""))
                        "Not Found" Examples.foo_body Examples.bad_request)
     = "_a".
Proof. split; reflexivity. Qed.

(** * More of [fetcher.ts] *)

(** ** The transport fails *)

(** X1: when the transport rejects, [fetcher] makes no other call, and
    what it rejects with depends on what the transport threw: an [ApiError]
    is thrown again as it is; a [SchemaValidationError] gives a plain
    [Error] with ["Response validation failed: "] before its message; any
    other [Error] gives a plain [Error] with ["Request failed: "] before its
    message; a value that is not an [Error] gives a plain [Error] with the
    message ["Request failed: Unknown error"]. *)
Theorem transport_failure_wrapped
    (fetch : Fetch) (input : RequestInfo) (init : option FetcherRequestInit)
    (t : Thrown) :
  fetch input (requestInit (init_or_empty init)) = Rejected t ->
  calls (fetcher fetch input init)
  = [CallFetch input (requestInit (init_or_empty init))]
  /\ (forall e, t = ThrownApiError e ->
      outcome (fetcher fetch input init) = Rejected (ThrownApiError e))
  /\ (forall e, t = ThrownSchemaValidationError e ->
      outcome (fetcher fetch input init)
      = Rejected (ThrownError
                    (new_Error ("Response validation failed: " +:+ SVE_message e))))
  /\ (forall e, t = ThrownError e ->
      outcome (fetcher fetch input init)
      = Rejected (ThrownError (new_Error ("Request failed: " +:+ Error_message e))))
  /\ (forall v, t = ThrownValue v ->
      outcome (fetcher fetch input init)
      = Rejected (ThrownError (new_Error "Request failed: Unknown error"))).
Proof.
  intros Hf. rewrite (fetcher_transport_failed _ _ _ t) by done.
  split_and!; [done|..]; by intros ? ->.
Qed.

(** ** The success path *)

(** X2: an ok response with a body and no success schema resolves to the
    decoded body as it is; the calls are the transport call and the
    decoding. *)
Theorem body_without_schema_returned
    (fetch : Fetch) (input : RequestInfo) (init : option FetcherRequestInit)
    (response : Response) (data : JsVal) :
  fetch input (requestInit (init_or_empty init)) = Fulfilled response ->
  ok response = true ->
  status response <> 204 ->
  headers_get response "content-length" <> Some "0" ->
  json response = Fulfilled data ->
  schema (init_or_empty init) = None ->
  fetcher fetch input init
  = (Fulfilled data,
     [CallFetch input (requestInit (init_or_empty init)); CallJson response]).
Proof.
  intros Hf Hok Hs Hh Hj Hsch.
  rewrite (fetcher_ok _ _ _ response), Hsch by done.
  by rewrite (parseResponse_body _ _ data).
Qed.

(** X3: when the success schema accepts the decoded body, [fetcher]
    resolves to the schema's output, not to the decoded body, and nothing is
    written to the console. *)
Theorem accepted_body_is_schema_output
    (fetch : Fetch) (input : RequestInfo) (init : option FetcherRequestInit)
    (response : Response) (successSchema : Schema) (data : JsVal) (result : Result) :
  fetch input (requestInit (init_or_empty init)) = Fulfilled response ->
  ok response = true ->
  status response <> 204 ->
  headers_get response "content-length" <> Some "0" ->
  json response = Fulfilled data ->
  schema (init_or_empty init) = Some successSchema ->
  validate successSchema data = Fulfilled result ->
  Result_issues result = None ->
  fetcher fetch input init
  = (Fulfilled (Result_value result),
     [CallFetch input (requestInit (init_or_empty init));
      CallJson response;
      CallValidate successSchema data]).
Proof.
  intros Hf Hok Hs Hh Hj Hsch Hv Hi.
  rewrite (fetcher_ok _ _ _ response), Hsch by done.
  rewrite (parseResponse_body _ _ data) by done.
  by rewrite (validateSchema_value _ _ result).
Qed.

Lemma parseResponse_undecodable (response : Response) (schema : option Schema)
    (e : JsError) :
  status response <> 204 ->
  headers_get response "content-length" <> Some "0" ->
  json response = Rejected e ->
  parseResponse response schema = (Rejected (ThrownError e), [CallJson response]).
Proof.
  intros Hs Hh Hj. unfold parseResponse, Response_json.
  by rewrite !bool_decide_false, Hj by done.
Qed.

(** X4: when the body of an ok response does not decode, [fetcher]
    rejects with the decoder's error itself: it is not wrapped into a
    ["Request failed: ..."] error, and the success schema is not invoked. *)
Theorem undecodable_success_body_not_wrapped
    (fetch : Fetch) (input : RequestInfo) (init : option FetcherRequestInit)
    (response : Response) (e : JsError) :
  fetch input (requestInit (init_or_empty init)) = Fulfilled response ->
  ok response = true ->
  status response <> 204 ->
  headers_get response "content-length" <> Some "0" ->
  json response = Rejected e ->
  fetcher fetch input init
  = (Rejected (ThrownError e),
     [CallFetch input (requestInit (init_or_empty init)); CallJson response]).
Proof.
  intros Hf Hok Hs Hh Hj.
  rewrite (fetcher_ok _ _ _ response) by done.
  by rewrite (parseResponse_undecodable _ _ e).
Qed.

(** X5: when the success schema's validation throws, [fetcher] rejects
    with the thrown value itself.  The console receives the issues and the
    decoded body only when the value is a [SchemaValidationError]. *)
Theorem success_schema_error_propagates
    (fetch : Fetch) (input : RequestInfo) (init : option FetcherRequestInit)
    (response : Response) (successSchema : Schema) (data : JsVal) (t : Thrown) :
  fetch input (requestInit (init_or_empty init)) = Fulfilled response ->
  ok response = true ->
  status response <> 204 ->
  headers_get response "content-length" <> Some "0" ->
  json response = Fulfilled data ->
  schema (init_or_empty init) = Some successSchema ->
  outcome (validateSchema successSchema data) = Rejected t ->
  outcome (fetcher fetch input init) = Rejected t
  /\ calls (fetcher fetch input init)
     = [CallFetch input (requestInit (init_or_empty init));
        CallJson response;
        CallValidate successSchema data]
       ++ match t with
          | ThrownSchemaValidationError e => [CallConsoleError (SVE_issues e) data]
          | _ => []
          end.
Proof.
  intros Hf Hok Hs Hh Hj Hsch Ht.
  rewrite (fetcher_ok _ _ _ response), Hsch by done.
  rewrite (parseResponse_body _ _ data), Ht by done.
  by destruct t.
Qed.

(** X6: on an ok response the error kinds play no part: two calls that
    differ only in their error kinds have the same run. *)
Theorem error_kinds_unused_on_success
    (fetch : Fetch) (input : RequestInfo) (init init' : option FetcherRequestInit)
    (response : Response) :
  requestInit (init_or_empty init) = requestInit (init_or_empty init') ->
  schema (init_or_empty init) = schema (init_or_empty init') ->
  fetch input (requestInit (init_or_empty init)) = Fulfilled response ->
  ok response = true ->
  fetcher fetch input init = fetcher fetch input init'.
Proof.
  intros Hri Hsch Hf Hok.
  rewrite (fetcher_ok _ _ _ response) by done.
  rewrite (fetcher_ok _ _ init' response) by (by rewrite <- ?Hri).
  by rewrite Hri, Hsch.
Qed.

(** X7: on a response that is not ok the success schema plays no part:
    two calls that differ only in their success schema have the same run. *)
Theorem success_schema_unused_on_failure
    (fetch : Fetch) (input : RequestInfo) (init init' : option FetcherRequestInit)
    (response : Response) :
  requestInit (init_or_empty init) = requestInit (init_or_empty init') ->
  errors (init_or_empty init) = errors (init_or_empty init') ->
  fetch input (requestInit (init_or_empty init)) = Fulfilled response ->
  ok response = false ->
  fetcher fetch input init = fetcher fetch input init'.
Proof.
  intros Hri Herr Hf Hok.
  rewrite (fetcher_not_ok _ _ _ response) by done.
  rewrite (fetcher_not_ok _ _ init' response) by (by rewrite <- ?Hri).
  by rewrite Hri, Herr.
Qed.

(** ** The failure path *)

(** [handleErrorResponse] sees the error kinds only through the candidates. *)
Lemma handleErrorResponse_by_candidates (response : Response)
    (errorTypes errorTypes' : option (list ErrorClass)) :
  matchingErrors response errorTypes = matchingErrors response errorTypes' ->
  handleErrorResponse response errorTypes = handleErrorResponse response errorTypes'.
Proof.
  intros Hm.
  destruct (decide (matchingErrors response errorTypes = [])) as [Hnil|Hnil].
  - rewrite !handleErrorResponse_no_match; congruence.
  - assert (matchingErrors response errorTypes' <> []) as Hnil' by congruence.
    destruct (json response) as [body|e] eqn:Hj.
    + rewrite (handleErrorResponse_decoded _ errorTypes body) by done.
      rewrite (handleErrorResponse_decoded _ errorTypes' body) by done.
      by rewrite Hm.
    + rewrite (handleErrorResponse_undecodable _ errorTypes e) by done.
      by rewrite (handleErrorResponse_undecodable _ errorTypes' e).
Qed.

Lemma matchingErrors_app (response : Response) (l1 l2 : list ErrorClass) :
  matchingErrors response (Some (l1 ++ l2))
  = matchingErrors response (Some l1) ++ matchingErrors response (Some l2).
Proof. unfold matchingErrors. simpl. apply filter_app. Qed.

Lemma matchingErrors_other_status (response : Response) (K : ErrorClass)
    (l : list ErrorClass) :
  ErrorClass_statusCode K <> status response ->
  matchingErrors response (Some (K :: l)) = matchingErrors response (Some l).
Proof. intros HK. unfold matchingErrors. simpl. by rewrite filter_cons_False. Qed.

(** A candidate that does not reject ends the loop, whatever follows it. *)
Lemma try_each_decided (response : Response) (body : JsVal) (E : ErrorClass)
    (rest rest' : list ErrorClass) :
  ~ rejects body E ->
  try_each response body (E :: rest) = try_each response body (E :: rest').
Proof.
  intros HE.
  destruct (outcome (validateSchema (ErrorClass_schema E) body)) as [v|t] eqn:Ht.
  - by rewrite !(try_each_accepted _ _ _ _ v).
  - assert (forall e, t <> ThrownSchemaValidationError e) as Hne.
    { intros e ->. apply HE. by exists e. }
    by rewrite !(try_each_thrown _ _ _ _ t).
Qed.

(** X8: on a response that is not ok [fetcher] never resolves, and what
    it rejects with is either an [ApiError] or a plain [Error] whose message
    starts with ["Request failed: "]; it is never a
    [SchemaValidationError]. *)
Theorem failure_rejects_with_api_or_generic_error
    (fetch : Fetch) (input : RequestInfo) (init : option FetcherRequestInit)
    (response : Response) :
  fetch input (requestInit (init_or_empty init)) = Fulfilled response ->
  ok response = false ->
  (exists e, outcome (fetcher fetch input init) = Rejected (ThrownApiError e))
  \/ (exists detail,
        outcome (fetcher fetch input init)
        = Rejected (ThrownError (new_Error ("Request failed: " +:+ detail)))).
Proof.
  intros Hf Hok. rewrite (fetcher_not_ok _ _ _ response) by done.
  pose proof (handleErrorResponse_drops_rejections response
                (errors (init_or_empty init))) as Hdrop.
  destruct (outcome (handleErrorResponse response (errors (init_or_empty init))))
    as [[]|[e|e|e|v]]; simpl.
  - left. by exists e.
  - by destruct (Hdrop e).
  - right. by exists (Error_message e).
  - right. by exists "Unknown error".
Qed.

(** X9: error kinds registered for another status have no effect on the
    failure path: with or without such a kind in the list, at any place,
    [handleErrorResponse] runs the same, and a list of such kinds only is as
    good as no list. *)
Theorem other_status_kinds_ignored
    (response : Response) (K : ErrorClass) (before after others : list ErrorClass) :
  (ErrorClass_statusCode K <> status response ->
   handleErrorResponse response (Some (before ++ K :: after))
   = handleErrorResponse response (Some (before ++ after)))
  /\ (Forall (fun K' => ErrorClass_statusCode K' <> status response) others ->
      handleErrorResponse response (Some others) = handleErrorResponse response None).
Proof.
  split; intros HK; apply handleErrorResponse_by_candidates.
  - rewrite !matchingErrors_app. by rewrite matchingErrors_other_status.
  - induction HK as [|K' others HK' _ IH]; [done|].
    by rewrite matchingErrors_other_status.
Qed.

(** X10: error kinds listed after a candidate that decides the matching
    (it has the response status and does not reject the decoded body) have
    no effect. *)
Theorem later_kinds_ignored
    (response : Response) (body : JsVal) (E : ErrorClass)
    (errorKinds later : list ErrorClass) :
  json response = Fulfilled body ->
  E ∈ errorKinds ->
  ErrorClass_statusCode E = status response ->
  ~ rejects body E ->
  handleErrorResponse response (Some (errorKinds ++ later))
  = handleErrorResponse response (Some errorKinds).
Proof.
  intros Hj Hin Hst HE.
  assert (E ∈ matchingErrors response (Some errorKinds)) as Hcand.
  { by apply matchingErrors_elem_of. }
  destruct (first_not_rejecting body (matchingErrors response (Some errorKinds)))
    as [Hall|(pre & E' & post & Hm & Hpre & HE')].
  { rewrite Forall_forall in Hall. by destruct (HE (Hall _ Hcand)). }
  rewrite (handleErrorResponse_decoded _ (Some (errorKinds ++ later)) body);
    [|rewrite matchingErrors_app, Hm; by destruct pre|done].
  rewrite (handleErrorResponse_decoded _ (Some errorKinds) body);
    [|rewrite Hm; by destruct pre|done].
  rewrite matchingErrors_app, Hm, <- app_assoc. simpl.
  rewrite !try_each_skips by done.
  by rewrite (try_each_decided _ _ E' (post ++ matchingErrors response (Some later)) post).
Qed.

Lemma try_each_only_acceptor (response : Response) (body v : JsVal) (E : ErrorClass)
    (candidates : list ErrorClass) :
  accepts body E v ->
  E ∈ candidates ->
  (forall E', E' ∈ candidates -> E' = E \/ rejects body E') ->
  outcome (try_each response body candidates)
  = Rejected (ThrownApiError (new E (statusText response) v response)).
Proof.
  intros HE. induction candidates as [|E' rest IH]; intros Hin Hothers.
  { by apply elem_of_nil in Hin. }
  destruct (Hothers E') as [->|Hrej]; [left|..].
  - by rewrite (try_each_accepted _ _ _ _ v).
  - rewrite try_each_rejected by done. simpl. apply IH.
    + apply elem_of_cons in Hin as [->|Hin]; [|done].
      destruct Hrej as [e He]. unfold accepts in HE. congruence.
    + intros E'' HE''. apply Hothers. by right.
Qed.

(** X11: when one error kind with the response status accepts the decoded
    body and every other kind with that status rejects it, the instance of
    that kind is thrown wherever the kind stands in the list. *)
Theorem only_acceptor_thrown_anywhere
    (fetch : Fetch) (input : RequestInfo) (init : option FetcherRequestInit)
    (response : Response) (body v : JsVal) (E : ErrorClass) :
  let errorKinds := default [] (errors (init_or_empty init)) in
  fetch input (requestInit (init_or_empty init)) = Fulfilled response ->
  ok response = false ->
  json response = Fulfilled body ->
  E ∈ errorKinds ->
  ErrorClass_statusCode E = status response ->
  accepts body E v ->
  (forall E', E' ∈ errorKinds -> ErrorClass_statusCode E' = status response ->
              E' = E \/ rejects body E') ->
  outcome (fetcher fetch input init)
  = Rejected (ThrownApiError (new E (statusText response) v response)).
Proof.
  intros errorKinds Hf Hok Hj Hin Hst HE Hothers.
  assert (E ∈ matchingErrors response (errors (init_or_empty init))) as Hcand.
  { by apply matchingErrors_elem_of. }
  rewrite (fetcher_not_ok _ _ _ response) by done.
  rewrite (handleErrorResponse_decoded _ _ body); [|by intros Hnil; rewrite Hnil in Hcand; apply elem_of_nil in Hcand|done].
  simpl. rewrite (try_each_only_acceptor _ _ v E); try done.
  intros E' HE'. apply matchingErrors_elem_of in HE' as [? ?]. by apply Hothers.
Qed.

Lemma generic_message_has_status (response : Response) :
  includes ("Request failed: " +:+ request_failed response)
           (Number_toString (status response)) = true.
Proof. unfold request_failed. rewrite <- append_assoc. apply includes_app. Qed.

Lemma no_match_message_has_status (response : Response) :
  includes ("Request failed: " +:+ request_failed response
              +:+ " - No matching error schema")
           (Number_toString (status response)) = true.
Proof.
  unfold request_failed.
  rewrite <- (append_assoc "Request failed: "), !append_assoc.
  rewrite <- (append_assoc "Request failed: "). apply includes_app.
Qed.

(** X12: when the schemas of the candidates return a result for the
    decoded body (none of them throws), a response that is not ok ends in
    one of two ways: [fetcher] rejects with an instance of one of the error
    kinds, which has the response's status, status text and response object
    and whose data is the [value] of the result without issues that the
    kind's schema returned for the body; or it rejects with a plain [Error]
    whose message contains the status code. *)
Theorem failure_with_returning_schemas
    (fetch : Fetch) (input : RequestInfo) (init : option FetcherRequestInit)
    (response : Response) :
  let errorKinds := errors (init_or_empty init) in
  fetch input (requestInit (init_or_empty init)) = Fulfilled response ->
  ok response = false ->
  (forall E body, E ∈ matchingErrors response errorKinds ->
                  json response = Fulfilled body ->
                  exists result, validate (ErrorClass_schema E) body = Fulfilled result) ->
  (exists E e body,
      E ∈ default [] errorKinds
      /\ outcome (fetcher fetch input init) = Rejected (ThrownApiError e)
      /\ ApiError_constructor e = E
      /\ ApiError_statusCode e = status response
      /\ ApiError_message e = statusText response
      /\ ApiError_response e = response
      /\ json response = Fulfilled body
      /\ exists result,
           validate (ErrorClass_schema E) body = Fulfilled result
           /\ Result_issues result = None
           /\ ApiError_data e = Result_value result)
  \/ (exists message,
        outcome (fetcher fetch input init) = Rejected (ThrownError (new_Error message))
        /\ includes message (Number_toString (status response)) = true).
Proof.
  intros errorKinds Hf Hok Hreturn.
  rewrite (fetcher_not_ok _ _ _ response) by done. fold errorKinds.
  destruct (decide (matchingErrors response errorKinds = [])) as [Hnil|Hnil].
  { right. eexists. rewrite handleErrorResponse_no_match by done.
    split; [done|apply generic_message_has_status]. }
  destruct (json response) as [body|err] eqn:Hj.
  2:{ right. eexists. rewrite (handleErrorResponse_undecodable _ _ err) by done.
      split; [done|apply generic_message_has_status]. }
  destruct (first_not_rejecting body (matchingErrors response errorKinds))
    as [Hall|(pre & E & post & Hm & Hpre & HE)].
  { right. eexists. rewrite (handleErrorResponse_decoded _ _ body) by done.
    rewrite try_each_all_rejected by done.
    split; [done|apply no_match_message_has_status]. }
  assert (E ∈ matchingErrors response errorKinds) as Hcand.
  { rewrite Hm. set_solver. }
  destruct (Hreturn E body Hcand eq_refl) as [result Hv].
  destruct (Result_issues result) as [issues|] eqn:Hi.
  { destruct HE. eexists. unfold outcome.
    by rewrite (validateSchema_issues _ _ result issues). }
  assert (accepts body E (Result_value result)) as Hacc.
  { unfold accepts, outcome. by rewrite (validateSchema_value _ _ result). }
  left. exists E, (new E (statusText response) (Result_value result) response), body.
  apply matchingErrors_elem_of in Hcand as [Hin Hst].
  erewrite handleErrorResponse_first; eauto using try_each_accepted.
  split_and!; try done. by exists result.
Qed.


Lemma validations_after_decode (body : JsVal) (candidates : list ErrorClass) :
  Forall (fun call => after_decode call = true) (validations body candidates).
Proof. induction candidates; by constructor. Qed.

Lemma handleErrorResponse_calls (response : Response)
    (errorTypes : option (list ErrorClass)) :
  calls (handleErrorResponse response errorTypes) = []
  \/ exists rest,
       calls (handleErrorResponse response errorTypes) = CallJson response :: rest
       /\ Forall (fun call => after_decode call = true) rest.
Proof.
  destruct (decide (matchingErrors response errorTypes = [])) as [Hnil|Hnil].
  { left. by rewrite handleErrorResponse_no_match. }
  right. destruct (json response) as [body|err] eqn:Hj.
  2:{ exists []. by rewrite (handleErrorResponse_undecodable _ _ err). }
  rewrite (handleErrorResponse_decoded _ _ body) by done.
  eexists. split; [done|]. simpl.
  generalize (matchingErrors response errorTypes). clear Hnil.
  intros candidates. induction candidates as [|E rest IH]; [by constructor|].
  destruct (rejects_dec body E) as [HE|HE].
  - rewrite try_each_rejected by done. by constructor.
  - destruct (outcome (validateSchema (ErrorClass_schema E) body)) as [v|t] eqn:Ht.
    + rewrite (try_each_accepted _ _ _ _ v) by done. by repeat constructor.
    + assert (forall e, t <> ThrownSchemaValidationError e) as Hne.
      { intros e ->. apply HE. by exists e. }
      rewrite (try_each_thrown _ _ _ _ t) by done. by repeat constructor.
Qed.

Lemma parseResponse_calls (response : Response) (schema : option Schema) :
  calls (parseResponse response schema) = []
  \/ exists rest,
       calls (parseResponse response schema) = CallJson response :: rest
       /\ Forall (fun call => after_decode call = true) rest.
Proof.
  destruct (decide (status response = 204)) as [Hs|Hs].
  { left. by rewrite parseResponse_no_body by by left. }
  destruct (decide (headers_get response "content-length" = Some "0")) as [Hh|Hh].
  { left. by rewrite parseResponse_no_body by by right. }
  right. destruct (json response) as [data|err] eqn:Hj.
  2:{ exists []. by rewrite (parseResponse_undecodable _ _ err). }
  rewrite (parseResponse_body _ _ data) by done.
  destruct schema as [schema|]; [|by exists []].
  destruct (outcome (validateSchema schema data)) as [v|[e|e|e|v]];
    eexists; (split; [done|by repeat constructor]).
Qed.

(** X14: the calls of one [fetcher] call.  The transport is called once,
    first, with the input and the options other than [schema] and [errors];
    after it the body of the response it returned is decoded at most once,
    and only then come validations and the console diagnostic.  There is no
    second transport call on any path. *)
Theorem one_fetch_then_at_most_one_decode
    (fetch : Fetch) (input : RequestInfo) (init : option FetcherRequestInit) :
  exists tail,
    calls (fetcher fetch input init)
    = CallFetch input (requestInit (init_or_empty init)) :: tail
    /\ (tail = []
        \/ exists response rest,
             fetch input (requestInit (init_or_empty init)) = Fulfilled response
             /\ tail = CallJson response :: rest
             /\ Forall (fun call => after_decode call = true) rest).
Proof.
  destruct (fetch input (requestInit (init_or_empty init))) as [response|t] eqn:Hf.
  2:{ exists []. rewrite (fetcher_transport_failed _ _ _ t) by done. by split; [|left]. }
  destruct (ok response) eqn:Hok.
  - rewrite (fetcher_ok _ _ _ response) by done. eexists. split; [done|]. simpl.
    destruct (parseResponse_calls response (schema (init_or_empty init)))
      as [->|(rest & -> & Hrest)]; [by left|right]. by exists response, rest.
  - rewrite (fetcher_not_ok _ _ _ response) by done. eexists. split; [done|]. simpl.
    destruct (handleErrorResponse_calls response (errors (init_or_empty init)))
      as [->|(rest & -> & Hrest)]; [by left|right]. by exists response, rest.
Qed.

(** ** These statements at concrete inputs *)

Lemma transport_failure_wrapped_witness :
  calls (fetcher Scenarios.offline "/api/users" None) = [CallFetch "/api/users" []]
  /\ outcome (fetcher Scenarios.offline "/api/users" None)
     = Rejected (ThrownError (new_Error "Request failed: Network error")).
Proof.
  destruct (transport_failure_wrapped Scenarios.offline "/api/users" None
              (ThrownError (new_Error "Network error")) eq_refl)
    as (Hcalls & _ & _ & Herror & _).
  split; [exact Hcalls|]. exact (Herror (new_Error "Network error") eq_refl).
Defined.

Lemma body_without_schema_returned_witness :
  fetcher (Examples.answering Examples.success) "/api/users/1" None
  = (Fulfilled Examples.id_body,
     [CallFetch "/api/users/1" []; CallJson Examples.success]).
Proof.
  apply (body_without_schema_returned
           (Examples.answering Examples.success) "/api/users/1" None
           Examples.success Examples.id_body).
  all: try reflexivity.
  all: intros H; vm_compute in H; discriminate H.
Defined.

Lemma accepted_body_is_schema_output_witness :
  json Scenarios.created
  = Fulfilled (JObj [("id", JStr "42"); ("extra", JBool true)])
  /\ fetcher (Examples.answering Scenarios.created) "/api/users"
             (Scenarios.with_both Scenarios.numeric_id [Examples.BarError])
     = (Fulfilled (JObj [("id", JNum 42)]),
        [CallFetch "/api/users" [("method", JStr "POST")];
         CallJson Scenarios.created;
         CallValidate Scenarios.numeric_id Scenarios.string_id_body]).
Proof.
  split; [reflexivity|].
  apply (accepted_body_is_schema_output
           (Examples.answering Scenarios.created) "/api/users"
           (Scenarios.with_both Scenarios.numeric_id [Examples.BarError])
           Scenarios.created Scenarios.numeric_id Scenarios.string_id_body
           {| Result_value := JObj [("id", JNum 42)]; Result_issues := None |}).
  all: try reflexivity.
  all: intros H; vm_compute in H; discriminate H.
Defined.

Lemma undecodable_success_body_not_wrapped_witness :
  fetcher (Examples.answering Scenarios.broken_success) "/api/users/1"
          (Examples.with_schema Examples.id_string)
  = (Rejected (ThrownError {| Error_name := "SyntaxError";
                              Error_message := "Unexpected token < in JSON" |}),
     [CallFetch "/api/users/1" []; CallJson Scenarios.broken_success]).
Proof.
  apply (undecodable_success_body_not_wrapped
           (Examples.answering Scenarios.broken_success) "/api/users/1"
           (Examples.with_schema Examples.id_string) Scenarios.broken_success).
  all: try reflexivity.
  all: intros H; vm_compute in H; discriminate H.
Defined.

Lemma success_schema_error_propagates_witness :
  outcome (fetcher (Examples.answering Examples.success) "/api/users/1"
                   (Examples.with_schema Examples.crashing))
  = Rejected (ThrownError {| Error_name := "TypeError"; Error_message := "boom" |})
  /\ calls (fetcher (Examples.answering Examples.success) "/api/users/1"
                    (Examples.with_schema Examples.crashing))
     = [CallFetch "/api/users/1" [];
        CallJson Examples.success;
        CallValidate Examples.crashing Examples.id_body].
Proof.
  apply (success_schema_error_propagates
           (Examples.answering Examples.success) "/api/users/1"
           (Examples.with_schema Examples.crashing)
           Examples.success Examples.crashing Examples.id_body
           (ThrownError {| Error_name := "TypeError"; Error_message := "boom" |})).
  all: try reflexivity.
  all: intros H; vm_compute in H; discriminate H.
Defined.

Lemma error_kinds_unused_on_success_witness :
  fetcher (Examples.answering Examples.success) "/api/users/1"
          (Scenarios.with_both Examples.id_string [Examples.BarError])
  = fetcher (Examples.answering Examples.success) "/api/users/1"
            (Scenarios.with_both Examples.id_string
               [Examples.CrashError; Examples.FooError]).
Proof.
  apply (error_kinds_unused_on_success
           (Examples.answering Examples.success) "/api/users/1"
           (Scenarios.with_both Examples.id_string [Examples.BarError])
           (Scenarios.with_both Examples.id_string
              [Examples.CrashError; Examples.FooError])
           Examples.success); reflexivity.
Defined.

Lemma success_schema_unused_on_failure_witness :
  fetcher (Examples.answering Examples.bad_request) "/api/items"
          (Scenarios.with_both Examples.id_string
             [Examples.BarError; Examples.FooError])
  = fetcher (Examples.answering Examples.bad_request) "/api/items"
            (Scenarios.with_both Examples.crashing
               [Examples.BarError; Examples.FooError]).
Proof.
  apply (success_schema_unused_on_failure
           (Examples.answering Examples.bad_request) "/api/items"
           (Scenarios.with_both Examples.id_string
              [Examples.BarError; Examples.FooError])
           (Scenarios.with_both Examples.crashing
              [Examples.BarError; Examples.FooError])
           Examples.bad_request); reflexivity.
Defined.

Lemma failure_rejects_with_api_or_generic_error_witness :
  (exists e,
      outcome (fetcher (Examples.answering Examples.server_error) "/api/items"
                       (Examples.with_errors [Examples.CrashError]))
      = Rejected (ThrownApiError e))
  \/ (exists detail,
        outcome (fetcher (Examples.answering Examples.server_error) "/api/items"
                         (Examples.with_errors [Examples.CrashError]))
        = Rejected (ThrownError (new_Error ("Request failed: " +:+ detail)))).
Proof.
  apply (failure_rejects_with_api_or_generic_error
           (Examples.answering Examples.server_error) "/api/items"
           (Examples.with_errors [Examples.CrashError])
           Examples.server_error); reflexivity.
Defined.

Lemma other_status_kinds_ignored_witness :
  handleErrorResponse Examples.bad_request
    (Some ([Examples.BarError] ++ Scenarios.NotFoundError :: [Examples.FooError]))
  = handleErrorResponse Examples.bad_request
      (Some ([Examples.BarError] ++ [Examples.FooError]))
  /\ handleErrorResponse Examples.bad_request
       (Some [Scenarios.NotFoundError; Examples.CrashError])
     = handleErrorResponse Examples.bad_request None.
Proof.
  destruct (other_status_kinds_ignored Examples.bad_request Scenarios.NotFoundError
              [Examples.BarError] [Examples.FooError]
              [Scenarios.NotFoundError; Examples.CrashError])
    as [Hone Hall].
  split.
  - apply Hone. intros H. discriminate H.
  - apply Hall. repeat constructor; intros H; discriminate H.
Defined.

Lemma foo_does_not_reject_foo_body : ~ rejects Examples.foo_body Examples.FooError.
Proof. intros [e He]. discriminate He. Defined.

Lemma later_kinds_ignored_witness :
  handleErrorResponse Examples.bad_request
    (Some ([Examples.BarError; Examples.FooError]
             ++ [Examples.FooError; Examples.BarError]))
  = handleErrorResponse Examples.bad_request
      (Some [Examples.BarError; Examples.FooError]).
Proof.
  apply (later_kinds_ignored Examples.bad_request Examples.foo_body Examples.FooError).
  - reflexivity.
  - apply list_elem_of_further, list_elem_of_here.
  - reflexivity.
  - exact foo_does_not_reject_foo_body.
Defined.

Lemma only_acceptor_thrown_anywhere_witness :
  outcome (fetcher (Examples.answering Examples.bad_request) "/api/items"
                   (Examples.with_errors [Examples.FooError; Examples.BarError]))
  = Rejected (ThrownApiError
                (new Examples.FooError "Bad Request" Examples.foo_body
                     Examples.bad_request)).
Proof.
  apply (only_acceptor_thrown_anywhere
           (Examples.answering Examples.bad_request) "/api/items"
           (Examples.with_errors [Examples.FooError; Examples.BarError])
           Examples.bad_request Examples.foo_body Examples.foo_body
           Examples.FooError).
  - reflexivity.
  - reflexivity.
  - reflexivity.
  - apply list_elem_of_here.
  - reflexivity.
  - reflexivity.
  - intros E' HE' _. apply elem_of_cons in HE' as [->|HE']; [by left|right].
    apply list_elem_of_singleton in HE' as ->. exact bar_rejects_foo_body.
Defined.

Lemma failure_with_returning_schemas_witness :
  (exists E e body,
      E ∈ [Scenarios.ShapeError; Scenarios.IdError]
      /\ outcome (fetcher (Examples.answering Scenarios.unprocessable) "/api/users"
                          (Examples.with_errors [Scenarios.ShapeError; Scenarios.IdError]))
         = Rejected (ThrownApiError e)
      /\ ApiError_constructor e = E
      /\ ApiError_statusCode e = 422
      /\ ApiError_message e = "Unprocessable Entity"
      /\ ApiError_response e = Scenarios.unprocessable
      /\ json Scenarios.unprocessable = Fulfilled body
      /\ exists result,
           validate (ErrorClass_schema E) body = Fulfilled result
           /\ Result_issues result = None
           /\ ApiError_data e = Result_value result)
  \/ (exists message,
        outcome (fetcher (Examples.answering Scenarios.unprocessable) "/api/users"
                         (Examples.with_errors [Scenarios.ShapeError; Scenarios.IdError]))
        = Rejected (ThrownError (new_Error message))
        /\ includes message (Number_toString 422) = true).
Proof.
  apply (failure_with_returning_schemas
           (Examples.answering Scenarios.unprocessable) "/api/users"
           (Examples.with_errors [Scenarios.ShapeError; Scenarios.IdError])
           Scenarios.unprocessable).
  - reflexivity.
  - reflexivity.
  - intros E body HE Hj. injection Hj as <-.
    change (E ∈ [Scenarios.ShapeError; Scenarios.IdError]) in HE.
    apply elem_of_cons in HE as [->|HE]; [eexists; reflexivity|].
    apply list_elem_of_singleton in HE as ->. eexists. reflexivity.
Defined.
